(** * Top-Tether quality system: position detection (Detection/version2/main2.py)

    A shallow embedding of [process_frame] and [main] and the properties of
    the offset computation, the status thresholds and the clean-up path.

    Conventions of the embedding
    - Python [int] is [Z]; [//] is [Z.div] (floor division).
    - Python [float] is IEEE-754 binary64, given by [spec_float] of the
      Standard Library with [prec = 53] and [emax = 1024].
    - A raised exception is the [Raise] case of [result].
    - The cv2 drawing calls mutate [annotated_frame]; the embedding keeps the
      frame it was copied from and the list of calls, in call order. *)

From Stdlib Require Import ZArith QArith List String Bool Lia.
From Stdlib Require Import Floats.SpecFloat.
Import ListNotations.

Open Scope string_scope.
Open Scope list_scope.
Open Scope Z_scope.

(** ** Exceptions and results *)

Inductive exn : Type :=
  | KeyboardInterrupt
  | SystemExit
  | ZeroDivisionError
  | OverflowError
  | UnboundLocalError (name : string)
  | RuntimeError (msg : string).

(** [isinstance(e, Exception)]: [KeyboardInterrupt] and [SystemExit]
    derive from [BaseException] directly, the other classes from
    [Exception]. *)
Definition is_Exception (e : exn) : bool :=
  match e with
  | KeyboardInterrupt | SystemExit => false
  | _ => true
  end.

(** [str(e)] *)
Definition str (e : exn) : string :=
  match e with
  | KeyboardInterrupt => ""
  | SystemExit => ""
  | ZeroDivisionError => "division by zero"
  | OverflowError => "integer division result too large for a float"
  | UnboundLocalError name =>
      ("cannot access local variable '" ++ name
         ++ "' where it is not associated with a value")%string
  | RuntimeError msg => msg
  end.

Inductive result (A : Type) : Type :=
  | Ok (a : A)
  | Raise (e : exn).
Arguments Ok {A} a.
Arguments Raise {A} e.

Definition bind {A B : Type} (r : result A) (k : A -> result B) : result B :=
  match r with
  | Ok a => k a
  | Raise e => Raise e
  end.

Declare Scope result_scope.
Delimit Scope result_scope with result.
Notation "x <- r ;; k" := (bind r (fun x => k))
  (at level 100, r at next level, right associativity) : result_scope.

(** ** Python numbers *)

Module PyFloat.

Definition prec : Z := 53.
Definition emax : Z := 1024.

(** [float(n)] for an [int] small enough to be exact (the literals 1, 10
    and 100 of the source). *)
Definition of_int (n : Z) : spec_float := binary_normalize prec emax n 0 false.

(** The operands of [int / int]: the integer itself, not yet rounded. *)
Definition exact (n : Z) : spec_float :=
  match n with
  | Z0 => S754_zero false
  | Zpos p => S754_finite false p 0
  | Zneg p => S754_finite true p 0
  end.

Definition is_infinity (x : spec_float) : bool :=
  match x with
  | S754_infinity _ => true
  | _ => false
  end.

Definition is_nan (x : spec_float) : bool :=
  match x with
  | S754_nan => true
  | _ => false
  end.

(** [a / b] on two [int]s: the correctly rounded quotient;
    [ZeroDivisionError] when [b] is 0 and [OverflowError] when the
    quotient is too large for a float. *)
Definition truediv (a b : Z) : result spec_float :=
  if b =? 0 then Raise ZeroDivisionError
  else
    let q := SFdiv prec emax (exact a) (exact b) in
    if is_infinity q then Raise OverflowError else Ok q.

Definition mul (x y : spec_float) : spec_float := SFmul prec emax x y.

(** [x < y] and [x > y]; both are [False] when an operand is NaN. *)
Definition ltb (x y : spec_float) : bool := SFltb x y.
Definition gtb (x y : spec_float) : bool :=
  match SFcompare x y with
  | Some Gt => true
  | _ => false
  end.
Definition leb (x y : spec_float) : bool := SFleb x y.

End PyFloat.

(** [int(x)] on a finite float: truncation towards zero.  The values of a
    detection row are finite float32 numbers, given here as rationals. *)
Definition py_int (x : Q) : Z := Z.quot (Qnum x) (Zpos (Qden x)).

(** ** Frames, detections and drawing calls *)

(** A numpy image: [shape[0]] rows, [shape[1]] columns and the pixel data. *)
Record Frame : Type := {
  shape0 : Z;
  shape1 : Z;
  pixels : list Z
}.

(** One row of [results[0].boxes.data]: x1, y1, x2, y2, conf, cls. *)
Record Row : Type := {
  row_x1 : Q;
  row_y1 : Q;
  row_x2 : Q;
  row_y2 : Q;
  row_conf : Q;
  row_cls : Q
}.

(** The YOLO model: [model.predict(frame, imgsz=, conf=)], reduced to the
    rows of [results[0].boxes.data], and the table [model.names].  The class
    index of a row is a key of the table of the model that produced it, so
    the lookup [model.names[cls]] is a total function. *)
Record Model : Type := {
  predict : Frame -> Z -> Q -> list Row;
  names : Z -> string
}.

Definition Point : Type := (Z * Z)%type.
Definition Color : Type := (Z * Z * Z)%type.

(** The text of a [cv2.putText] call or of a [print]: the f-string and the
    values it formats.  The font of every [cv2.putText] call is
    [cv2.FONT_HERSHEY_SIMPLEX] and is left out. *)
Inductive Text : Type :=
  | TxtPoint (x y : Z)                 (* f"({x1}, {y1})" *)
  | TxtMid (x y : Z)                   (* f"Mid: ({mid_x}, {y1})" *)
  | TxtTMid (v : Z)                    (* f"t_mid_x: {t_mid_x}" *)
  | TxtLMid (v : Z)                    (* f"l_mid_x: {l_mid_x}" *)
  | TxtWidth (v : Z)                   (* f"width_t: {width_t}" *)
  | TxtPct (p : spec_float)            (* f"Pct: {percentage:.2f}%" *)
  | TxtHStatus (s : string)            (* f"H-Status: {h_status}" *)
  | TxtVPosition (s : string)          (* f"V-Position: {v_status}" *)
  | TxtPlain (s : string)              (* logo_status *)
  | TxtReport (p : spec_float) (h v l : string).
      (* f"Percentage Difference: {percentage:.2f}% - {h_status} - {v_status} - {logo_status}" *)

Inductive DrawOp : Type :=
  | Line (p1 p2 : Point) (color : Color) (thickness : Z)
  | Rectangle (p1 p2 : Point) (color : Color) (thickness : Z)
  | PutText (text : Text) (org : Point) (fontScale : Q) (color : Color) (thickness : Z)
  | Circle (center : Point) (radius : Z) (color : Color) (thickness : Z).

(** [annotated_frame]: the copy of the input frame and the calls made on it. *)
Record AnnotatedFrame : Type := {
  base : Frame;
  drawn : list DrawOp
}.

Definition copy (frame : Frame) : AnnotatedFrame :=
  {| base := frame; drawn := [] |}.

Definition draw (af : AnnotatedFrame) (ops : list DrawOp) : AnnotatedFrame :=
  {| base := base af; drawn := drawn af ++ ops |}.

(** ** process_frame *)

Record Box : Type := { bx1 : Z; by1 : Z; bx2 : Z; by2 : Z }.

(** The local variables of [process_frame] that the loop over the rows
    changes.  [t_x1 .. t_y2] are assigned together, and so are [l_x1 ..
    l_y2] and the loop variables: each group is one [option], [None] being
    the initial [None] of the source for the first two and "not yet bound"
    for the loop variables. *)
Record Locals : Type := {
  annotated_frame : AnnotatedFrame;
  t_box : option Box;                  (* t_x1, t_y1, t_x2, t_y2 *)
  l_box : option Box;                  (* l_x1, l_y1, l_x2, l_y2 *)
  loop_vars : option (Box * string)    (* x1, y1, x2, y2, class_name *)
}.

Definition green : Color := (0, 255, 0).
Definition red : Color := (0, 0, 255).
Definition yellow : Color := (0, 255, 255).
Definition blue : Color := (255, 0, 0).

Definition row_box (result : Row) : Box :=
  {| bx1 := py_int (row_x1 result); by1 := py_int (row_y1 result);
     bx2 := py_int (row_x2 result); by2 := py_int (row_y2 result) |}.

Definition row_class (model : Model) (result : Row) : string :=
  names model (py_int (row_cls result)).

(** The drawing calls of one iteration (lines 44-57). *)
Definition box_drawing (b : Box) : list DrawOp :=
  let mid_x := (bx1 b + bx2 b) / 2 in
  [ Rectangle (bx1 b, by1 b) (bx2 b, by2 b) green 2;
    PutText (TxtPoint (bx1 b) (by1 b)) (bx1 b, by1 b - 30) 0.5 green 2;
    PutText (TxtPoint (bx2 b) (by2 b)) (bx2 b, by2 b + 10) 0.5 green 2;
    Circle (mid_x, by1 b) 3 red (-1);
    PutText (TxtMid mid_x (by1 b)) (mid_x, by1 b - 10) 0.5 red 2 ].

(** The body of [for result in results[0].boxes.data] (lines 36-63).  The
    string [label] of line 47 is built and never used; it is left out, and
    with it [conf]. *)
Definition loop_body (model : Model) (st : Locals) (result : Row) : Locals :=
  let b := row_box result in
  let class_name := row_class model result in
  let af := draw (annotated_frame st) (box_drawing b) in
  if (class_name =? "topTether")%string then
    {| annotated_frame := af; t_box := Some b; l_box := l_box st;
       loop_vars := Some (b, class_name) |}
  else if (class_name =? "logo")%string then
    {| annotated_frame := af; t_box := t_box st; l_box := Some b;
       loop_vars := Some (b, class_name) |}
  else
    {| annotated_frame := af; t_box := t_box st; l_box := l_box st;
       loop_vars := Some (b, class_name) |}.

Definition run_loop (model : Model) (st : Locals) (results : list Row) : Locals :=
  fold_left (loop_body model) results st.

(** Lines 75-83. *)
Definition horizontal_status (percentage : spec_float) : string * Color :=
  if PyFloat.ltb percentage (PyFloat.of_int 1) then
    ("Left of Normal Position", yellow)
  else if PyFloat.gtb percentage (PyFloat.of_int 10) then
    ("Right of Normal Position", red)
  else
    ("Normal Position", green).

(** Lines 89-94. *)
Definition logo_decision (h_status v_status class_name : string) : string * Color :=
  if ((h_status =? "Normal Position") && (v_status =? "Right")
      && negb (class_name =? "inverted_topTether")
      && negb (class_name =? "inverted_logo"))%string
  then ("NORMAL LOGO", red)
  else ("DEFECTIVE LOGO", green).

(** What [process_frame] hands back: the annotated frame it returns and the
    lines it printed. *)
Definition Output : Type := (AnnotatedFrame * list Text)%type.

(** The block under [if t_x1 is not None and l_x1 is not None] (lines
    67-114). *)
Definition position_block (frame : Frame) (middle_x : Z) (st : Locals)
    (t l : Box) : result Output :=
  let t_mid_x := (bx1 t + bx2 t) / 2 in
  let l_mid_x := (bx1 l + bx2 l) / 2 in
  let width_t := bx2 t - bx1 t in
  let diff_x := l_mid_x - t_mid_x in
  (q <- PyFloat.truediv diff_x width_t ;;
   let percentage := PyFloat.mul q (PyFloat.of_int 100) in
   let '(h_status, h_color) := horizontal_status percentage in
   v <- match loop_vars st with
        | Some v => Ok v
        | None => Raise (UnboundLocalError "x2")
        end ;;
   let '(b, class_name) := v in
   let v_status := if bx2 b >? middle_x then "Right" else "Left" in
   let '(logo_status, logo_color) := logo_decision h_status v_status class_name in
   Ok (draw (annotated_frame st)
         [ PutText (TxtTMid t_mid_x) (10, 30) 0.7 blue 2;
           PutText (TxtLMid l_mid_x) (10, 60) 0.7 blue 2;
           PutText (TxtWidth width_t) (10, 90) 0.7 blue 2;
           PutText (TxtPct percentage) (10, 120) 0.7 blue 2;
           PutText (TxtHStatus h_status) (10, 150) 0.7 h_color 2;
           PutText (TxtVPosition v_status) (10, 180) 0.7 (255, 165, 0) 2;
           PutText (TxtPlain logo_status) (10, shape0 frame - 20) 1.2 logo_color 3 ],
       [ TxtReport percentage h_status v_status logo_status ]))%result.

(** [results[0].boxes.data] of line 23. *)
Definition detections (frame : Frame) (model : Model) : list Row :=
  predict model frame 640 0.79.

(** The locals before the loop (lines 19-33). *)
Definition initial_locals (frame : Frame) : Locals :=
  let image_width := shape1 frame in
  let middle_x := image_width / 2 in
  {| annotated_frame :=
       draw (copy frame) [ Line (middle_x, 0) (middle_x, shape0 frame) blue 1 ];
     t_box := None; l_box := None; loop_vars := None |}.

(** The locals after the loop (line 64). *)
Definition locals_after_loop (frame : Frame) (model : Model) : Locals :=
  run_loop model (initial_locals frame) (detections frame model).

Definition process_frame (frame : Frame) (model : Model) : result Output :=
  let image_width := shape1 frame in
  let middle_x := image_width / 2 in
  let st := locals_after_loop frame model in
  match t_box st, l_box st with
  | Some t, Some l => position_block frame middle_x st t l
  | _, _ => Ok (annotated_frame st, [])
  end.

(** ** The outside world of [main] *)

(** What the program does that can be seen from outside. *)
Inductive Event : Type :=
  | EvCameraStart                                   (* picam2.start() returned *)
  | EvPrint (line : Text)                           (* print(...) *)
  | EvShow (winname : string) (af : AnnotatedFrame) (* cv2.imshow returned *)
  | EvCameraStop                                    (* picam2.stop() returned *)
  | EvDestroyAllWindows.                            (* cv2.destroyAllWindows() returned *)

(** A computation: the events it produced and how it ended. *)
Definition IO (A : Type) : Type := (list Event * result A)%type.

Definition ret {A : Type} (a : A) : IO A := ([], Ok a).
Definition emit (ev : Event) : IO unit := ([ev], Ok tt).
Definition call {A : Type} (r : result A) : IO A := ([], r).
Definition print (line : Text) : IO unit := emit (EvPrint line).

Definition io_bind {A B : Type} (m : IO A) (k : A -> IO B) : IO B :=
  match m with
  | (tr, Ok a) => let '(tr', r) := k a in (tr ++ tr', r)
  | (tr, Raise e) => (tr, Raise e)
  end.

Declare Scope io_scope.
Delimit Scope io_scope with io.
Notation "x <- m ;; k" := (io_bind m (fun x => k))
  (at level 100, m at next level, right associativity) : io_scope.
Notation "m ;; k" := (io_bind m (fun _ => k))
  (at level 100, right associativity) : io_scope.

Inductive Camera : Type := camera.

(** The result of every call that leaves the program: it returns a value or
    raises.  The calls of the capture loop are indexed by the iteration. *)
Record World : Type := {
  Picamera2 : result Camera;
  create_preview_configuration : result unit;
  configure : result unit;
  start : result unit;
  sleep : result unit;
  YOLO : string -> result Model;
  capture_array : nat -> result Frame;
  cvtColor : nat -> Frame -> result Frame;
  imshow : nat -> result unit;
  waitKey : nat -> result Z;
  stop : result unit;
  destroyAllWindows : result unit
}.

Definition newline : string := String (Ascii.ascii_of_nat 10) "".

Section Main.

Variable w : World.

Definition initialize_camera : IO Camera :=
  (picam2 <- call (Picamera2 w) ;;
   config <- call (create_preview_configuration w) ;;
   call (configure w) ;;
   call (start w) ;;
   emit EvCameraStart ;;
   call (sleep w) ;;
   ret picam2)%io.

(** One pass of the [while True] body (lines 130-142); [true] is [break]. *)
Definition iteration (model : Model) (i : nat) : IO bool :=
  (frame <- call (capture_array w i) ;;
   rgb_frame <- call (cvtColor w i frame) ;;
   out <- call (process_frame rgb_frame model) ;;
   let '(annotated_frame, printed) := out in
   (map EvPrint printed, Ok tt) ;;
   call (imshow w i) ;;
   emit (EvShow "Position Detection" annotated_frame) ;;
   key <- call (waitKey w i) ;;
   ret (Z.land key 255 =? 113))%io.

(** [while True]: [None] when [fuel] passes were not enough to leave it. *)
Fixpoint while_true (model : Model) (fuel i : nat) : option (IO unit) :=
  match fuel with
  | O => None
  | S fuel' =>
      match iteration model i with
      | (tr, Raise e) => Some (tr, Raise e)
      | (tr, Ok true) => Some (tr, Ok tt)
      | (tr, Ok false) =>
          match while_true model fuel' (S i) with
          | Some (tr', r) => Some (tr ++ tr', r)
          | None => None
          end
      end
  end.

(** Lines 125-142, after [picam2] is bound. *)
Definition try_rest (fuel : nat) : option (IO unit) :=
  match call (YOLO w "best.pt") with
  | (tr, Raise e) => Some (tr, Raise e)
  | (tr, Ok model) =>
      let tr1 :=
        [ EvPrint (TxtPlain "Model loaded successfully");
          EvPrint (TxtPlain "Starting position detection. Press 'q' to exit.") ] in
      match while_true model fuel 0 with
      | Some (tr', r) => Some (tr ++ tr1 ++ tr', r)
      | None => None
      end
  end.

(** The [except] clauses (lines 144-147). *)
Definition handlers (e : exn) : IO unit :=
  match e with
  | KeyboardInterrupt => print (TxtPlain (newline ++ "Exiting program...")%string)
  | _ =>
      if is_Exception e
      then print (TxtPlain ("An error occurred: " ++ str e)%string)
      else ([], Raise e)
  end.

(** The [finally] clause (lines 148-151); [picam2] is the local variable of
    [main], unbound when [initialize_camera] did not return. *)
Definition finally (picam2 : option Camera) : IO unit :=
  match picam2 with
  | None => ([], Raise (UnboundLocalError "picam2"))
  | Some _ =>
      (call (stop w) ;;
       emit EvCameraStop ;;
       call (destroyAllWindows w) ;;
       emit EvDestroyAllWindows)%io
  end.

(** [try: body / except: handlers / finally: clean-up].  An exception that
    a handler or the clean-up raises replaces the pending one. *)
Definition try_except_finally (body : IO unit) (picam2 : option Camera) : IO unit :=
  let '(tr, r) := body in
  let '(tr_h, r_h) :=
    match r with
    | Ok _ => ([], Ok tt)
    | Raise e => handlers e
    end in
  let '(tr_f, r_f) := finally picam2 in
  (tr ++ tr_h ++ tr_f,
   match r_f with
   | Raise e => Raise e
   | Ok _ => r_h
   end).

Definition main (fuel : nat) : option (IO unit) :=
  match initialize_camera with
  | (tr, Raise e) => Some (try_except_finally (tr, Raise e) None)
  | (tr, Ok picam2) =>
      match try_rest fuel with
      | Some (tr', r) => Some (try_except_finally (tr ++ tr', r) (Some picam2))
      | None => None
      end
  end.

End Main.

(** ** Vocabulary of the specification *)

(** A feature is detected in a frame when some row has its class. *)
Definition detected (model : Model) (c : string) (rows : list Row) : bool :=
  existsb (fun r => (row_class model r =? c)%string) rows.

(** The box of the last row of class [c] in iteration order. *)
Fixpoint last_of_class (model : Model) (c : string) (rows : list Row) : option Box :=
  match rows with
  | [] => None
  | r :: rest =>
      match last_of_class model c rest with
      | Some b => Some b
      | None => if (row_class model r =? c)%string then Some (row_box r) else None
      end
  end.

(** The integer midpoint [(x1 + x2) // 2] of a bounding box. *)
Definition midpoint (b : Box) : Z := (bx1 b + bx2 b) / 2.

(** The offset percentage of the glossary:
    [(logo_mid_x - tether_mid_x) / tether_width * 100]. *)
Definition offset_percentage (tether logo : Box) : result spec_float :=
  (q <- PyFloat.truediv (midpoint logo - midpoint tether) (bx2 tether - bx1 tether) ;;
   Ok (PyFloat.mul q (PyFloat.of_int 100)))%result.

(** [p < 1], [p > 10] and [1 <= p <= 10] on floats. *)
Definition below_1 (p : spec_float) : bool := PyFloat.ltb p (PyFloat.of_int 1).
Definition above_10 (p : spec_float) : bool := PyFloat.gtb p (PyFloat.of_int 10).
Definition between_1_and_10 (p : spec_float) : bool :=
  PyFloat.leb (PyFloat.of_int 1) p && PyFloat.leb p (PyFloat.of_int 10).

(** The percentage and the NORMAL/DEFECTIVE label that a call of
    [process_frame] reported, if it reported one. *)
Definition classification (r : result Output) : option (spec_float * string) :=
  match r with
  | Ok (_, [TxtReport p _ _ s]) => Some (p, s)
  | _ => None
  end.

(** The calls that show a measurement or a status (lines 97-112). *)
Definition is_status_op (op : DrawOp) : bool :=
  match op with
  | PutText (TxtTMid _) _ _ _ _
  | PutText (TxtLMid _) _ _ _ _
  | PutText (TxtWidth _) _ _ _ _
  | PutText (TxtPct _) _ _ _ _
  | PutText (TxtHStatus _) _ _ _ _
  | PutText (TxtVPosition _) _ _ _ _
  | PutText (TxtPlain _) _ _ _ _
  | PutText (TxtReport _ _ _ _) _ _ _ _ => true
  | _ => false
  end.

(** [main] returned: no exception left it. *)
Definition returned (r : option (IO unit)) : Prop :=
  exists tr, r = Some (tr, Ok tt).

(** ** Concrete inputs *)

Module Examples.

(** The class table of a model trained on the four classes. *)
Definition names4 (cls : Z) : string :=
  match cls with
  | 0 => "topTether"
  | 1 => "logo"
  | 2 => "inverted_topTether"
  | 3 => "inverted_logo"
  | _ => "background"
  end.

Definition row (x1 y1 x2 y2 : Z) (cls : Z) : Row :=
  {| row_x1 := inject_Z x1; row_y1 := inject_Z y1;
     row_x2 := inject_Z x2; row_y2 := inject_Z y2;
     row_conf := 0.9; row_cls := inject_Z cls |}.

Definition model_of (rows : list Row) : Model :=
  {| predict := fun _ _ _ => rows; names := names4 |}.

(** A 640x480 frame, as the preview configuration delivers. *)
Definition frame_640x480 : Frame :=
  {| shape0 := 480; shape1 := 640; pixels := [] |}.

(** Tether [100..200], logo [110..200]: offset 5 %, logo ends left of the
    middle (200 <= 320). *)
Definition model_left : Model :=
  model_of [ row 100 50 200 100 0; row 110 60 200 90 1 ].

(** Tether [200..300], logo [180..330]: offset 5 %, logo ends right of the
    middle (330 > 320). *)
Definition model_right : Model :=
  model_of [ row 200 50 300 100 0; row 180 60 330 90 1 ].

(** A tether box of width 0 together with a logo. *)
Definition model_zero_width : Model :=
  model_of [ row 200 50 200 100 0; row 180 60 330 90 1 ].

(** Only a tether, no logo. *)
Definition model_tether_only : Model :=
  model_of [ row 200 50 300 100 0 ].

(** Two tethers and a logo; a background row comes last. *)
Definition model_two_tethers : Model :=
  model_of [ row 0 50 100 100 0; row 180 60 330 90 1;
             row 200 50 300 100 0; row 400 10 500 20 7 ].

(** 5.0 *)
Definition five_percent : spec_float := S754_finite false 5629499534213120 (-50).

Definition world_ok : World :=
  {| Picamera2 := Ok camera;
     create_preview_configuration := Ok tt;
     configure := Ok tt;
     start := Ok tt;
     sleep := Ok tt;
     YOLO := fun _ => Ok model_right;
     capture_array := fun _ => Ok frame_640x480;
     cvtColor := fun _ frame => Ok frame;
     imshow := fun _ => Ok tt;
     waitKey := fun i => Ok (if Nat.eqb i 1 then 113 else -1);
     stop := Ok tt;
     destroyAllWindows := Ok tt |}.

(** [Picamera2()] fails: no camera is attached. *)
Definition world_no_camera : World :=
  {| Picamera2 := Raise (RuntimeError "Camera not found");
     create_preview_configuration := create_preview_configuration world_ok;
     configure := configure world_ok;
     start := start world_ok;
     sleep := sleep world_ok;
     YOLO := YOLO world_ok;
     capture_array := capture_array world_ok;
     cvtColor := cvtColor world_ok;
     imshow := imshow world_ok;
     waitKey := waitKey world_ok;
     stop := stop world_ok;
     destroyAllWindows := destroyAllWindows world_ok |}.

(** Ctrl-C during the two seconds of warm-up, after the camera started. *)
Definition world_interrupted_warm_up : World :=
  {| Picamera2 := Picamera2 world_ok;
     create_preview_configuration := create_preview_configuration world_ok;
     configure := configure world_ok;
     start := start world_ok;
     sleep := Raise KeyboardInterrupt;
     YOLO := YOLO world_ok;
     capture_array := capture_array world_ok;
     cvtColor := cvtColor world_ok;
     imshow := imshow world_ok;
     waitKey := waitKey world_ok;
     stop := stop world_ok;
     destroyAllWindows := destroyAllWindows world_ok |}.

End Examples.

(** ** Vocabulary for the runs of [main] and for what a frame shows *)

Definition is_ok {A : Type} (r : result A) : bool :=
  match r with
  | Ok _ => true
  | Raise _ => false
  end.

Definition is_camera_start (ev : Event) : bool :=
  match ev with
  | EvCameraStart => true
  | _ => false
  end.

Definition is_show (ev : Event) : bool :=
  match ev with
  | EvShow _ _ => true
  | _ => false
  end.

(** The events of a pass of the loop: prints and displayed frames. *)
Definition is_loop_event (ev : Event) : bool :=
  match ev with
  | EvPrint _ | EvShow _ _ => true
  | _ => false
  end.

(** An exception that one of the two [except] clauses of [main] catches:
    [KeyboardInterrupt], or an instance of [Exception]. *)
Definition caught (e : exn) : bool :=
  match e with
  | KeyboardInterrupt => true
  | _ => is_Exception e
  end.

(** The line that the [except] clauses print for an exception they catch. *)
Definition handler_line (e : exn) : string :=
  match e with
  | KeyboardInterrupt => (newline ++ "Exiting program...")%string
  | _ => ("An error occurred: " ++ str e)%string
  end.

(** The horizontal extent of a box. *)
Definition box_columns (b : Box) : Z * Z := (bx1 b, bx2 b).

(** Two rows with the same x1, x2 and class after [int(...)]. *)
Definition same_columns (r r' : Row) : Prop :=
  py_int (row_x1 r) = py_int (row_x1 r') /\
  py_int (row_x2 r) = py_int (row_x2 r') /\
  py_int (row_cls r) = py_int (row_cls r').

(** The x2 and the class name of the last row, if there is a row. *)
Fixpoint last_detection (model : Model) (rows : list Row) : option (Z * string) :=
  match rows with
  | [] => None
  | [d] => Some (py_int (row_x2 d), row_class model d)
  | _ :: rest => last_detection model rest
  end.

(** What a call of [process_frame] printed, or the exception it raised. *)
Definition printed (r : result Output) : result (list Text) :=
  match r with
  | Ok (_, out) => Ok out
  | Raise e => Raise e
  end.

(** What [process_frame] prints, written as a function of the image width,
    the horizontal extents of the last topTether and the last logo box, and
    the x2 and class name of the last row. *)
Definition report_of_columns (image_width : Z) (tether logo : option (Z * Z))
    (last : option (Z * string)) : result (list Text) :=
  match tether, logo with
  | Some (t_x1, t_x2), Some (l_x1, l_x2) =>
      (q <- PyFloat.truediv ((l_x1 + l_x2) / 2 - (t_x1 + t_x2) / 2) (t_x2 - t_x1) ;;
       let p := PyFloat.mul q (PyFloat.of_int 100) in
       let h := fst (horizontal_status p) in
       match last with
       | Some (x2, class_name) =>
           let v := if x2 >? image_width / 2 then "Right" else "Left" in
           Ok [ TxtReport p h v (fst (logo_decision h v class_name)) ]
       | None => Raise (UnboundLocalError "x2")
       end)%result
  | _, _ => Ok []
  end.

(** The events of the try body of [main] when the loop is left in pass [k]:
    those of [initialize_camera], the two lines printed after the model is
    loaded, and those of the passes 0 .. k. *)
Definition body_events (w : World) (tr0 : list Event) (model : Model) (k : nat)
    : list Event :=
  tr0 ++ [ EvPrint (TxtPlain "Model loaded successfully");
           EvPrint (TxtPlain "Starting position detection. Press 'q' to exit.") ]
      ++ flat_map (fun j => fst (iteration w model j)) (seq 0 (S k)).

Module Scenarios.

(** Nobody presses a key: [cv2.waitKey] gives -1 in every pass. *)
Definition world_never_q : World :=
  {| Picamera2 := Picamera2 Examples.world_ok;
     create_preview_configuration := create_preview_configuration Examples.world_ok;
     configure := configure Examples.world_ok;
     start := start Examples.world_ok;
     sleep := sleep Examples.world_ok;
     YOLO := YOLO Examples.world_ok;
     capture_array := capture_array Examples.world_ok;
     cvtColor := cvtColor Examples.world_ok;
     imshow := imshow Examples.world_ok;
     waitKey := fun _ => Ok (-1);
     stop := stop Examples.world_ok;
     destroyAllWindows := destroyAllWindows Examples.world_ok |}.

(** The weights file is missing. *)
Definition world_no_weights : World :=
  {| Picamera2 := Picamera2 Examples.world_ok;
     create_preview_configuration := create_preview_configuration Examples.world_ok;
     configure := configure Examples.world_ok;
     start := start Examples.world_ok;
     sleep := sleep Examples.world_ok;
     YOLO := fun _ => Raise (RuntimeError "best.pt not found");
     capture_array := capture_array Examples.world_ok;
     cvtColor := cvtColor Examples.world_ok;
     imshow := imshow Examples.world_ok;
     waitKey := waitKey Examples.world_ok;
     stop := stop Examples.world_ok;
     destroyAllWindows := destroyAllWindows Examples.world_ok |}.

(** The model finds a tether of width 0 in the second frame. *)
Definition model_zero_width_second : Model :=
  {| predict := fun frame _ _ =>
       match pixels frame with
       | [] => detections Examples.frame_640x480 Examples.model_right
       | _ => detections Examples.frame_640x480 Examples.model_zero_width
       end;
     names := Examples.names4 |}.

Definition world_zero_width_second : World :=
  {| Picamera2 := Picamera2 Examples.world_ok;
     create_preview_configuration := create_preview_configuration Examples.world_ok;
     configure := configure Examples.world_ok;
     start := start Examples.world_ok;
     sleep := sleep Examples.world_ok;
     YOLO := fun _ => Ok model_zero_width_second;
     capture_array := fun i =>
       Ok {| shape0 := 480; shape1 := 640;
             pixels := match i with O => [] | _ => [1] end |};
     cvtColor := cvtColor Examples.world_ok;
     imshow := imshow Examples.world_ok;
     waitKey := fun _ => Ok (-1);
     stop := stop Examples.world_ok;
     destroyAllWindows := destroyAllWindows Examples.world_ok |}.

(** Ctrl-C while the third frame is captured. *)
Definition world_interrupted_third : World :=
  {| Picamera2 := Picamera2 Examples.world_ok;
     create_preview_configuration := create_preview_configuration Examples.world_ok;
     configure := configure Examples.world_ok;
     start := start Examples.world_ok;
     sleep := sleep Examples.world_ok;
     YOLO := YOLO Examples.world_ok;
     capture_array := fun i =>
       match i with
       | 2%nat => Raise KeyboardInterrupt
       | _ => Ok Examples.frame_640x480
       end;
     cvtColor := cvtColor Examples.world_ok;
     imshow := imshow Examples.world_ok;
     waitKey := fun _ => Ok (-1);
     stop := stop Examples.world_ok;
     destroyAllWindows := destroyAllWindows Examples.world_ok |}.

(** A library call ends the interpreter ([sys.exit()]) while the second
    frame is captured. *)
Definition world_exit_second : World :=
  {| Picamera2 := Picamera2 Examples.world_ok;
     create_preview_configuration := create_preview_configuration Examples.world_ok;
     configure := configure Examples.world_ok;
     start := start Examples.world_ok;
     sleep := sleep Examples.world_ok;
     YOLO := YOLO Examples.world_ok;
     capture_array := fun i =>
       match i with
       | 1%nat => Raise SystemExit
       | _ => Ok Examples.frame_640x480
       end;
     cvtColor := cvtColor Examples.world_ok;
     imshow := imshow Examples.world_ok;
     waitKey := fun _ => Ok (-1);
     stop := stop Examples.world_ok;
     destroyAllWindows := destroyAllWindows Examples.world_ok |}.

(** [sys.exit()] while the model is loaded. *)
Definition world_exit_on_load : World :=
  {| Picamera2 := Picamera2 Examples.world_ok;
     create_preview_configuration := create_preview_configuration Examples.world_ok;
     configure := configure Examples.world_ok;
     start := start Examples.world_ok;
     sleep := sleep Examples.world_ok;
     YOLO := fun _ => Raise SystemExit;
     capture_array := capture_array Examples.world_ok;
     cvtColor := cvtColor Examples.world_ok;
     imshow := imshow Examples.world_ok;
     waitKey := waitKey Examples.world_ok;
     stop := stop Examples.world_ok;
     destroyAllWindows := destroyAllWindows Examples.world_ok |}.

(** [sys.exit()] inside [picam2.configure]. *)
Definition world_exit_in_configure : World :=
  {| Picamera2 := Picamera2 Examples.world_ok;
     create_preview_configuration := create_preview_configuration Examples.world_ok;
     configure := Raise SystemExit;
     start := start Examples.world_ok;
     sleep := sleep Examples.world_ok;
     YOLO := YOLO Examples.world_ok;
     capture_array := capture_array Examples.world_ok;
     cvtColor := cvtColor Examples.world_ok;
     imshow := imshow Examples.world_ok;
     waitKey := waitKey Examples.world_ok;
     stop := stop Examples.world_ok;
     destroyAllWindows := destroyAllWindows Examples.world_ok |}.

(** [picam2.stop()] fails. *)
Definition world_stop_fails : World :=
  {| Picamera2 := Picamera2 Examples.world_ok;
     create_preview_configuration := create_preview_configuration Examples.world_ok;
     configure := configure Examples.world_ok;
     start := start Examples.world_ok;
     sleep := sleep Examples.world_ok;
     YOLO := YOLO Examples.world_ok;
     capture_array := capture_array Examples.world_ok;
     cvtColor := cvtColor Examples.world_ok;
     imshow := imshow Examples.world_ok;
     waitKey := waitKey Examples.world_ok;
     stop := Raise (RuntimeError "Camera has not been started");
     destroyAllWindows := destroyAllWindows Examples.world_ok |}.

(** The logo box of [Examples.model_right] moved left of the tether's
    middle, with other rows, heights and confidences. *)
Definition model_logo_left : Model :=
  Examples.model_of [ Examples.row 200 50 300 100 0; Examples.row 150 60 330 90 1 ].

(** [Examples.model_right] with other heights, confidence and sub-pixel
    parts. *)
Definition model_right_shifted : Model :=
  {| predict := fun _ _ _ =>
       [ {| row_x1 := 200.4; row_y1 := 10; row_x2 := 300.9; row_y2 := 470;
            row_conf := 0.8; row_cls := 0 |};
         {| row_x1 := 180.7; row_y1 := 200; row_x2 := 330.2; row_y2 := 260;
            row_conf := 0.95; row_cls := 1 |} ];
     names := Examples.names4 |}.

(** [Examples.model_right] preceded by an inverted logo. *)
Definition model_right_after_inverted : Model :=
  Examples.model_of [ Examples.row 10 10 40 40 3;
                      Examples.row 200 50 300 100 0; Examples.row 180 60 330 90 1 ].

End Scenarios.

(** * Properties *)

(** ** The loop over the detections *)

Section LoopFacts.

Variable model : Model.

Lemma run_loop_app (st : Locals) (xs ys : list Row) :
  run_loop model st (xs ++ ys) = run_loop model (run_loop model st xs) ys.
Proof. unfold run_loop. apply fold_left_app. Qed.

Lemma run_loop_cons (st : Locals) (r : Row) (rows : list Row) :
  run_loop model st (r :: rows) = run_loop model (loop_body model st r) rows.
Proof. reflexivity. Qed.

Lemma loop_body_t_box (st : Locals) (r : Row) :
  t_box (loop_body model st r) =
  if (row_class model r =? "topTether")%string then Some (row_box r) else t_box st.
Proof.
  unfold loop_body.
  destruct (row_class model r =? "topTether")%string; [reflexivity|].
  destruct (row_class model r =? "logo")%string; reflexivity.
Qed.

Lemma loop_body_l_box (st : Locals) (r : Row) :
  l_box (loop_body model st r) =
  if (row_class model r =? "logo")%string then Some (row_box r) else l_box st.
Proof.
  unfold loop_body.
  destruct (row_class model r =? "topTether")%string eqn:Ht.
  - apply String.eqb_eq in Ht. rewrite Ht. reflexivity.
  - destruct (row_class model r =? "logo")%string; reflexivity.
Qed.

Lemma loop_body_loop_vars (st : Locals) (r : Row) :
  loop_vars (loop_body model st r) = Some (row_box r, row_class model r).
Proof.
  unfold loop_body.
  destruct (row_class model r =? "topTether")%string; [reflexivity|].
  destruct (row_class model r =? "logo")%string; reflexivity.
Qed.

Lemma loop_body_annotated_frame (st : Locals) (r : Row) :
  annotated_frame (loop_body model st r) =
  draw (annotated_frame st) (box_drawing (row_box r)).
Proof.
  unfold loop_body.
  destruct (row_class model r =? "topTether")%string; [reflexivity|].
  destruct (row_class model r =? "logo")%string; reflexivity.
Qed.

(** After the loop [t_x1 .. t_y2] hold the last topTether row, or what
    they held before when there is none. *)
Lemma run_loop_t_box (rows : list Row) (st : Locals) :
  t_box (run_loop model st rows) =
  match last_of_class model "topTether" rows with
  | Some b => Some b
  | None => t_box st
  end.
Proof.
  revert st. induction rows as [|r rows IH]; intros st; [reflexivity|].
  rewrite run_loop_cons, IH, loop_body_t_box. cbn [last_of_class].
  destruct (last_of_class model "topTether" rows); [reflexivity|].
  destruct (row_class model r =? "topTether")%string; reflexivity.
Qed.

Lemma run_loop_l_box (rows : list Row) (st : Locals) :
  l_box (run_loop model st rows) =
  match last_of_class model "logo" rows with
  | Some b => Some b
  | None => l_box st
  end.
Proof.
  revert st. induction rows as [|r rows IH]; intros st; [reflexivity|].
  rewrite run_loop_cons, IH, loop_body_l_box. cbn [last_of_class].
  destruct (last_of_class model "logo" rows); [reflexivity|].
  destruct (row_class model r =? "logo")%string; reflexivity.
Qed.

(** The loop variables keep the values of the last iteration. *)
Lemma run_loop_loop_vars (rows : list Row) (d : Row) (st : Locals) :
  loop_vars (run_loop model st (rows ++ [d])) = Some (row_box d, row_class model d).
Proof.
  rewrite run_loop_app. cbn [run_loop fold_left]. apply loop_body_loop_vars.
Qed.

Lemma run_loop_annotated_frame (rows : list Row) (st : Locals) :
  annotated_frame (run_loop model st rows) =
  draw (annotated_frame st) (flat_map (fun r => box_drawing (row_box r)) rows).
Proof.
  revert st. induction rows as [|r rows IH]; intros st.
  - destruct st as [[b ops] ? ? ?]. unfold draw. cbn. now rewrite app_nil_r.
  - rewrite run_loop_cons, IH, loop_body_annotated_frame.
    unfold draw. cbn [base drawn flat_map]. now rewrite <- app_assoc.
Qed.

Lemma last_of_class_detected (c : string) (rows : list Row) :
  detected model c rows = true <-> exists b, last_of_class model c rows = Some b.
Proof.
  induction rows as [|r rows IH]; cbn [detected existsb last_of_class].
  - split; [discriminate | intros [b Hb]; discriminate].
  - fold (detected model c rows). rewrite orb_true_iff, IH.
    destruct (last_of_class model c rows) as [b|].
    + split; intros _; [now exists b | right; now exists b].
    + destruct (row_class model r =? c)%string.
      * split; intros _; [now eexists | now left].
      * split; [intros [H|[b H]]; discriminate | intros [b H]; discriminate].
Qed.

Lemma last_of_class_not_detected (c : string) (rows : list Row) :
  detected model c rows = false <-> last_of_class model c rows = None.
Proof.
  pose proof (last_of_class_detected c rows) as H.
  destruct (detected model c rows), (last_of_class model c rows) as [b|].
  - split; discriminate.
  - destruct (proj1 H eq_refl); discriminate.
  - assert (false = true) by (apply H; now exists b). discriminate.
  - split; reflexivity.
Qed.

(** The last row of class [c] is the one no later row of class [c] follows. *)
Lemma last_of_class_split (c : string) (pre post : list Row) (d : Row) :
  row_class model d = c ->
  detected model c post = false ->
  last_of_class model c (pre ++ d :: post) = Some (row_box d).
Proof.
  intros Hd Hpost. apply last_of_class_not_detected in Hpost.
  induction pre as [|r pre IH]; cbn [app last_of_class].
  - rewrite Hpost, Hd, String.eqb_refl. reflexivity.
  - rewrite IH. reflexivity.
Qed.

Lemma detected_nonempty (c : string) (rows : list Row) :
  detected model c rows = true -> exists pre d, rows = pre ++ [d].
Proof.
  intros H. destruct rows as [|r rows]; [discriminate|].
  destruct (exists_last (l := r :: rows)) as [pre [d Hd]]; [discriminate|].
  now exists pre, d.
Qed.

End LoopFacts.

(** ** Floats: the computed percentage is a number, and comparisons on
    numbers are total *)

Section FloatFacts.

Lemma shr_1_nonneg (mrs : shr_record) :
  0 <= shr_m mrs -> 0 <= shr_m (shr_1 mrs).
Proof.
  destruct mrs as [m r s]. cbn [shr_m].
  destruct m as [|[p|p|]|p]; cbn; lia.
Qed.

Lemma iter_pos_shr_1_nonneg (n : positive) (mrs : shr_record) :
  0 <= shr_m mrs -> 0 <= shr_m (iter_pos shr_1 n mrs).
Proof.
  revert mrs. induction n as [n IH|n IH|]; intros mrs H; cbn [iter_pos].
  - apply IH, IH, shr_1_nonneg, H.
  - apply IH, IH, H.
  - apply shr_1_nonneg, H.
Qed.

Lemma shr_fexp_nonneg (m e : Z) (l : location) :
  0 <= m -> 0 <= shr_m (fst (shr_fexp PyFloat.prec PyFloat.emax m e l)).
Proof.
  intros H. unfold shr_fexp, shr.
  assert (H0 : 0 <= shr_m (shr_record_of_loc m l))
    by (destruct l as [|[]]; exact H).
  destruct (fexp PyFloat.prec PyFloat.emax (Zdigits2 m + e) - e); cbn [fst];
    [exact H0 | apply iter_pos_shr_1_nonneg, H0 | exact H0].
Qed.

Lemma round_nearest_even_nonneg (m : Z) (l : location) :
  0 <= m -> 0 <= round_nearest_even m l.
Proof.
  intros H. destruct l as [|[]]; cbn; try lia.
  destruct (Z.even m); lia.
Qed.

(** Rounding a non-negative mantissa never gives NaN. *)
Lemma binary_round_aux_not_nan (sx : bool) (mx ex : Z) (lx : location) :
  0 <= mx ->
  PyFloat.is_nan (binary_round_aux PyFloat.prec PyFloat.emax sx mx ex lx) = false.
Proof.
  intros H. unfold binary_round_aux.
  pose proof (shr_fexp_nonneg mx ex lx H) as H1.
  destruct (shr_fexp PyFloat.prec PyFloat.emax mx ex lx) as [mrs' e'].
  cbn [fst] in H1.
  pose proof (shr_fexp_nonneg _ e' loc_Exact
                (round_nearest_even_nonneg _ (loc_of_shr_record mrs') H1)) as H2.
  destruct (shr_fexp PyFloat.prec PyFloat.emax
              (round_nearest_even (shr_m mrs') (loc_of_shr_record mrs')) e' loc_Exact)
    as [mrs'' e''].
  cbn [fst] in H2.
  destruct (shr_m mrs'') as [|m|m]; [reflexivity| |lia].
  destruct (e'' <=? PyFloat.emax - PyFloat.prec); reflexivity.
Qed.

Lemma SFdiv_core_binary_nonneg (mx my : positive) (ex ey : Z) :
  0 <= fst (fst (SFdiv_core_binary PyFloat.prec PyFloat.emax (Zpos mx) ex (Zpos my) ey)).
Proof.
  unfold SFdiv_core_binary.
  set (s := ex - ey - _).
  set (m' := match s with Z0 => Zpos mx | Zpos _ => Z.shiftl (Zpos mx) s | Zneg _ => 0 end).
  assert (Hm : 0 <= m').
  { subst m'. destruct s; [lia | apply Z.shiftl_nonneg; lia | lia]. }
  destruct (Z.div_eucl m' (Zpos my)) as [q r] eqn:E. cbn [fst].
  assert (Hq : q = m' / Zpos my) by (unfold Z.div; now rewrite E).
  rewrite Hq. apply Z.div_pos; lia.
Qed.

(** [int / int] is a number whenever it is defined. *)
Lemma truediv_not_nan (a b : Z) (q : spec_float) :
  PyFloat.truediv a b = Ok q -> PyFloat.is_nan q = false.
Proof.
  unfold PyFloat.truediv. destruct (Z.eqb_spec b 0) as [|Hb]; [discriminate|].
  destruct (PyFloat.is_infinity _) eqn:Hinf; [discriminate|].
  intros [= <-].
  destruct a as [|pa|pa], b as [|pb|pb]; try reflexivity; try lia;
    cbn [PyFloat.exact SFdiv];
    match goal with
    | |- context [SFdiv_core_binary ?p ?e ?m1 ?e1 ?m2 ?e2] =>
        pose proof (SFdiv_core_binary_nonneg
                      ltac:(match m1 with Zpos ?x => exact x end) 
                      ltac:(match m2 with Zpos ?x => exact x end) e1 e2) as Hn;
        destruct (SFdiv_core_binary p e m1 e1 m2 e2) as [[mz ez] lz];
        cbn [fst] in Hn; apply binary_round_aux_not_nan, Hn
    end.
Qed.

Lemma truediv_finite (a b : Z) (q : spec_float) :
  PyFloat.truediv a b = Ok q -> PyFloat.is_infinity q = false.
Proof.
  unfold PyFloat.truediv. destruct (b =? 0); [discriminate|].
  destruct (PyFloat.is_infinity _) eqn:Hinf; [discriminate|].
  now intros [= <-].
Qed.

Lemma of_int_100 :
  PyFloat.of_int 100 = S754_finite false 7036874417766400 (-46).
Proof. reflexivity. Qed.

Lemma of_int_1 : PyFloat.of_int 1 = S754_finite false 4503599627370496 (-52).
Proof. reflexivity. Qed.

Lemma of_int_10 : PyFloat.of_int 10 = S754_finite false 5629499534213120 (-49).
Proof. reflexivity. Qed.

(** The percentage [q * 100] of a defined quotient is a number. *)
Lemma percentage_not_nan (a b : Z) (q : spec_float) :
  PyFloat.truediv a b = Ok q ->
  PyFloat.is_nan (PyFloat.mul q (PyFloat.of_int 100)) = false.
Proof.
  intros H. pose proof (truediv_not_nan _ _ _ H) as Hn.
  pose proof (truediv_finite _ _ _ H) as Hf.
  rewrite of_int_100. unfold PyFloat.mul.
  destruct q as [s|s| |s m e]; try discriminate; [reflexivity|].
  cbn [SFmul]. apply binary_round_aux_not_nan. lia.
Qed.

End FloatFacts.

(** ** Comparisons against the thresholds *)

Section Thresholds.

Lemma SFcompare_antisym (x y : spec_float) :
  SFcompare y x = option_map CompOpp (SFcompare x y).
Proof.
  destruct x as [sx|sx| |sx mx ex], y as [sy|sy| |sy my ey]; cbn;
    try reflexivity;
    try (destruct sx; reflexivity);
    try (destruct sy; reflexivity);
    try (destruct sx, sy; reflexivity).
  destruct sx, sy; try reflexivity;
    rewrite (Z.compare_antisym ex ey);
    destruct (ex ?= ey); cbn; try reflexivity;
    change PosDef.Pos.compare_cont with Pos.compare_cont;
    now rewrite (Pos.compare_cont_antisym mx my Eq).
Qed.

Lemma gtb_ltb (x y : spec_float) : PyFloat.gtb x y = PyFloat.ltb y x.
Proof.
  unfold PyFloat.gtb, PyFloat.ltb, SFltb. rewrite (SFcompare_antisym x y).
  destruct (SFcompare x y) as [[]|]; reflexivity.
Qed.

(** On numbers, [not (x < y)] is [y <= x]. *)
Lemma ltb_false_leb (x y : spec_float) :
  PyFloat.is_nan x = false -> PyFloat.is_nan y = false ->
  PyFloat.ltb x y = false -> PyFloat.leb y x = true.
Proof.
  unfold PyFloat.ltb, PyFloat.leb, SFltb, SFleb. intros Hx Hy.
  rewrite (SFcompare_antisym x y).
  destruct x, y; try discriminate; destruct (SFcompare _ _) as [[]|] eqn:E;
    cbn; try reflexivity; try discriminate; intros _; cbn in E; discriminate.
Qed.

Lemma leb_ltb_false (x y : spec_float) :
  PyFloat.leb y x = true -> PyFloat.ltb x y = false.
Proof.
  unfold PyFloat.ltb, PyFloat.leb, SFltb, SFleb.
  rewrite (SFcompare_antisym x y).
  destruct (SFcompare x y) as [[]|]; cbn; congruence.
Qed.

(** Nothing is both below 1 and above 10. *)
Lemma below_1_not_above_10 (p : spec_float) :
  PyFloat.ltb p (PyFloat.of_int 1) = true ->
  PyFloat.gtb p (PyFloat.of_int 10) = false.
Proof.
  rewrite of_int_1, of_int_10. unfold PyFloat.ltb, PyFloat.gtb, SFltb.
  destruct p as [s|s| |s m e]; cbn [SFcompare]; try reflexivity.
  - destruct s; [reflexivity | discriminate].
  - destruct s; [reflexivity|].
    destruct (Z.compare_spec e (-52)) as [E1|E1|E1];
      destruct (Z.compare_spec e (-49)) as [E2|E2|E2];
      try reflexivity; try discriminate; lia.
Qed.

End Thresholds.

(** ** The horizontal status *)

Section HorizontalStatus.

Lemma between_not_below (p : spec_float) :
  between_1_and_10 p = true -> below_1 p = false.
Proof.
  unfold between_1_and_10, below_1. intros H.
  apply andb_true_iff in H as [H _]. now apply leb_ltb_false.
Qed.

Lemma between_not_above (p : spec_float) :
  between_1_and_10 p = true -> above_10 p = false.
Proof.
  unfold between_1_and_10, above_10. intros H.
  apply andb_true_iff in H as [_ H]. rewrite gtb_ltb. now apply leb_ltb_false.
Qed.

Lemma neither_is_between (p : spec_float) :
  PyFloat.is_nan p = false ->
  below_1 p = false -> above_10 p = false -> between_1_and_10 p = true.
Proof.
  unfold between_1_and_10, below_1, above_10. intros Hn H1 H10.
  rewrite gtb_ltb in H10. apply andb_true_iff. split.
  - apply ltb_false_leb; [exact Hn | now rewrite of_int_1 | exact H1].
  - apply ltb_false_leb; [now rewrite of_int_10 | exact Hn | exact H10].
Qed.

Lemma horizontal_status_cases (p : spec_float) :
  fst (horizontal_status p) =
  if below_1 p then "Left of Normal Position"
  else if above_10 p then "Right of Normal Position"
  else "Normal Position".
Proof.
  unfold horizontal_status, below_1, above_10.
  destruct (PyFloat.ltb _ _); [reflexivity|].
  destruct (PyFloat.gtb _ _); reflexivity.
Qed.

End HorizontalStatus.

(** ** process_frame, case by case *)

Section ProcessFrame.

Variables (frame : Frame) (model : Model).

Let rows := detections frame model.
Let st := locals_after_loop frame model.
Let middle_x := shape1 frame / 2.

Lemma t_box_after_loop :
  t_box st = last_of_class model "topTether" rows.
Proof.
  unfold st, locals_after_loop. rewrite run_loop_t_box. fold rows.
  now destruct (last_of_class model "topTether" rows).
Qed.

Lemma l_box_after_loop :
  l_box st = last_of_class model "logo" rows.
Proof.
  unfold st, locals_after_loop. rewrite run_loop_l_box. fold rows.
  now destruct (last_of_class model "logo" rows).
Qed.

Lemma loop_vars_after_loop (pre : list Row) (d : Row) :
  rows = pre ++ [d] ->
  loop_vars st = Some (row_box d, row_class model d).
Proof.
  intros H. unfold st, locals_after_loop. fold rows. rewrite H.
  apply run_loop_loop_vars.
Qed.

Lemma annotated_frame_after_loop :
  annotated_frame st =
  {| base := frame;
     drawn := Line (middle_x, 0) (middle_x, shape0 frame) blue 1
                :: flat_map (fun r => box_drawing (row_box r)) rows |}.
Proof.
  unfold st, locals_after_loop. rewrite run_loop_annotated_frame. reflexivity.
Qed.

(** The block of lines 67-114 once the loop variables are known. *)
Lemma position_block_eq (s0 : Locals) (t l b : Box) (class_name : string) :
  loop_vars s0 = Some (b, class_name) ->
  position_block frame middle_x s0 t l =
  match offset_percentage t l with
  | Raise e => Raise e
  | Ok p =>
      let h := fst (horizontal_status p) in
      let v := if bx2 b >? middle_x then "Right" else "Left" in
      let s := fst (logo_decision h v class_name) in
      Ok (draw (annotated_frame s0)
            [ PutText (TxtTMid (midpoint t)) (10, 30) 0.7 blue 2;
              PutText (TxtLMid (midpoint l)) (10, 60) 0.7 blue 2;
              PutText (TxtWidth (bx2 t - bx1 t)) (10, 90) 0.7 blue 2;
              PutText (TxtPct p) (10, 120) 0.7 blue 2;
              PutText (TxtHStatus h) (10, 150) 0.7 (snd (horizontal_status p)) 2;
              PutText (TxtVPosition v) (10, 180) 0.7 (255, 165, 0) 2;
              PutText (TxtPlain s) (10, shape0 frame - 20) 1.2
                (snd (logo_decision h v class_name)) 3 ],
          [ TxtReport p h v s ])
  end.
Proof.
  intros Hv. unfold position_block, offset_percentage, midpoint.
  destruct (PyFloat.truediv _ _) as [q|e]; cbn [bind]; [|reflexivity].
  destruct (horizontal_status _) as [h hc]. rewrite Hv. cbn [bind fst snd].
  destruct (logo_decision _ _ _) as [s c]. reflexivity.
Qed.

(** Both features detected: the result is that of the position block on
    the last box of each class and the last row. *)
Lemma process_frame_detected :
  detected model "topTether" rows = true ->
  detected model "logo" rows = true ->
  exists t l pre d,
    last_of_class model "topTether" rows = Some t /\
    last_of_class model "logo" rows = Some l /\
    rows = pre ++ [d] /\
    process_frame frame model = position_block frame middle_x st t l /\
    loop_vars st = Some (row_box d, row_class model d).
Proof.
  intros Ht Hl.
  destruct (proj1 (last_of_class_detected model _ _) Ht) as [t Et].
  destruct (proj1 (last_of_class_detected model _ _) Hl) as [l El].
  destruct (detected_nonempty model _ _ Ht) as [pre [d Hd]].
  exists t, l, pre, d. repeat split; try assumption.
  - unfold process_frame. fold st.
    rewrite t_box_after_loop, l_box_after_loop, Et, El. reflexivity.
  - now apply loop_vars_after_loop with pre.
Qed.

(** A feature missing: the frame after the loop is returned as it is. *)
Lemma process_frame_missing :
  detected model "topTether" rows = false \/ detected model "logo" rows = false ->
  process_frame frame model = Ok (annotated_frame st, []).
Proof.
  intros H. unfold process_frame. fold st.
  rewrite t_box_after_loop, l_box_after_loop.
  destruct H as [H|H]; apply last_of_class_not_detected in H; rewrite H.
  - reflexivity.
  - now destruct (last_of_class model "topTether" rows).
Qed.

(** Whatever [process_frame] reported came out of the position block. *)
Lemma process_frame_report_inv (af : AnnotatedFrame) (p : spec_float)
    (h v s : string) :
  process_frame frame model = Ok (af, [TxtReport p h v s]) ->
  exists t l pre d,
    last_of_class model "topTether" rows = Some t /\
    last_of_class model "logo" rows = Some l /\
    rows = pre ++ [d] /\
    offset_percentage t l = Ok p /\
    h = fst (horizontal_status p) /\
    v = (if bx2 (row_box d) >? middle_x then "Right" else "Left") /\
    s = fst (logo_decision h v (row_class model d)).
Proof.
  intros H.
  destruct (detected model "topTether" rows) eqn:Ht;
    [|rewrite process_frame_missing in H by (now left); discriminate].
  destruct (detected model "logo" rows) eqn:Hl;
    [|rewrite process_frame_missing in H by (now right); discriminate].
  destruct (process_frame_detected Ht Hl) as (t & l & pre & d & Et & El & Hd & Hp & Hv).
  exists t, l, pre, d. rewrite Hp, (position_block_eq _ _ _ _ _ Hv) in H.
  destruct (offset_percentage t l) as [p'|e]; [|discriminate].
  cbn zeta in H. injection H as _ <- <- <- <-. repeat split; assumption.
Qed.

(** The loop variables are bound wherever they are read: [process_frame]
    raises nothing but the two errors of the division. *)
Lemma process_frame_raises_only (e : exn) :
  process_frame frame model = Raise e ->
  e = ZeroDivisionError \/ e = OverflowError.
Proof.
  intros H.
  destruct (detected model "topTether" rows) eqn:Ht;
    [|rewrite process_frame_missing in H by (now left); discriminate].
  destruct (detected model "logo" rows) eqn:Hl;
    [|rewrite process_frame_missing in H by (now right); discriminate].
  destruct (process_frame_detected Ht Hl) as (t & l & pre & d & _ & _ & _ & Hp & Hv).
  rewrite Hp, (position_block_eq _ _ _ _ _ Hv) in H.
  unfold offset_percentage, PyFloat.truediv in H.
  destruct (_ =? 0); [injection H as <-; now left|].
  destruct (PyFloat.is_infinity _); [injection H as <-; now right|].
  discriminate.
Qed.

End ProcessFrame.

(** ** Status labels *)

Section Labels.

Lemma horizontal_status_normal_eqb (p : spec_float) :
  PyFloat.is_nan p = false ->
  (fst (horizontal_status p) =? "Normal Position")%string = between_1_and_10 p.
Proof.
  intros Hn. rewrite horizontal_status_cases.
  destruct (below_1 p) eqn:H1.
  - destruct (between_1_and_10 p) eqn:Hb; [|reflexivity].
    apply between_not_below in Hb. congruence.
  - destruct (above_10 p) eqn:H10.
    + destruct (between_1_and_10 p) eqn:Hb; [|reflexivity].
      apply between_not_above in Hb. congruence.
    + now rewrite neither_is_between.
Qed.

Lemma side_right_eqb (x2 middle_x : Z) :
  ((if x2 >? middle_x then "Right" else "Left") =? "Right")%string = (x2 >? middle_x).
Proof. now destruct (x2 >? middle_x). Qed.

Lemma logo_decision_label (h v c : string) :
  fst (logo_decision h v c) =
  if ((h =? "Normal Position") && (v =? "Right")
      && negb (c =? "inverted_topTether") && negb (c =? "inverted_logo"))%string
  then "NORMAL LOGO" else "DEFECTIVE LOGO".
Proof. unfold logo_decision. now destruct (_ && _ && _ && _). Qed.

Lemma logo_decision_two_labels (h v c : string) :
  fst (logo_decision h v c) = "NORMAL LOGO" \/
  fst (logo_decision h v c) = "DEFECTIVE LOGO".
Proof. rewrite logo_decision_label. destruct (_ && _ && _ && _); auto. Qed.

Lemma offset_percentage_not_nan (t l : Box) (p : spec_float) :
  offset_percentage t l = Ok p -> PyFloat.is_nan p = false.
Proof.
  unfold offset_percentage.
  destruct (PyFloat.truediv _ _) as [q|e] eqn:E; cbn [bind]; [|discriminate].
  intros [= <-]. eapply percentage_not_nan, E.
Qed.

End Labels.

Lemma length_box_drawings (rows : list Row) :
  List.length (flat_map (fun r => box_drawing (row_box r)) rows)
  = (5 * List.length rows)%nat.
Proof.
  induction rows as [|r rows IH]; [reflexivity|].
  cbn [flat_map]. rewrite length_app, IH.
  change (List.length (box_drawing (row_box r))) with 5%nat.
  cbn [List.length]. lia.
Qed.

(** * The claims about process_frame *)

(** C2. For every frame in which both topTether and logo are detected, the
    computed offset percentage is
    [(logo_mid_x - tether_mid_x) / tether_width * 100], with the integer
    midpoints [(x1 + x2) // 2] of the two stored boxes and the width
    [t_x2 - t_x1]: when that expression is defined, [process_frame] reports
    and draws exactly its value; when it raises, so does [process_frame]. *)
Theorem C2_offset_percentage_formula (frame : Frame) (model : Model) :
  detected model "topTether" (detections frame model) = true ->
  detected model "logo" (detections frame model) = true ->
  exists t l,
    last_of_class model "topTether" (detections frame model) = Some t /\
    last_of_class model "logo" (detections frame model) = Some l /\
    match offset_percentage t l with
    | Ok p =>
        exists af h v s,
          process_frame frame model = Ok (af, [TxtReport p h v s]) /\
          In (PutText (TxtPct p) (10, 120) 0.7 blue 2) (drawn af)
    | Raise e => process_frame frame model = Raise e
    end.
Proof.
  intros Ht Hl.
  destruct (process_frame_detected frame model Ht Hl)
    as (t & l & pre & d & Et & El & Hd & Hp & Hv).
  exists t, l. repeat split; try assumption.
  rewrite Hp, (position_block_eq _ _ _ _ _ _ Hv).
  destruct (offset_percentage t l) as [p|e]; [|reflexivity].
  cbn zeta. do 4 eexists. split; [reflexivity|].
  unfold draw. cbn [drawn]. apply in_or_app. right. cbn. tauto.
Qed.

Lemma C2_offset_percentage_formula_witness :
  exists t l,
    last_of_class Examples.model_right "topTether"
      (detections Examples.frame_640x480 Examples.model_right) = Some t /\
    last_of_class Examples.model_right "logo"
      (detections Examples.frame_640x480 Examples.model_right) = Some l /\
    match offset_percentage t l with
    | Ok p =>
        exists af h v s,
          process_frame Examples.frame_640x480 Examples.model_right
            = Ok (af, [TxtReport p h v s]) /\
          In (PutText (TxtPct p) (10, 120) 0.7 blue 2) (drawn af)
    | Raise e => process_frame Examples.frame_640x480 Examples.model_right = Raise e
    end.
Proof.
  apply (C2_offset_percentage_formula Examples.frame_640x480 Examples.model_right);
    reflexivity.
Defined.

(** C5. For every offset percentage [p] that [process_frame] computed, the
    horizontal status is "Left of Normal Position" exactly when [p < 1],
    "Right of Normal Position" exactly when [p > 10] and "Normal Position"
    exactly when [1 <= p <= 10]; it is one of these three labels. *)
Theorem C5_horizontal_status_thresholds (frame : Frame) (model : Model)
    (af : AnnotatedFrame) (p : spec_float) (h v s : string) :
  process_frame frame model = Ok (af, [TxtReport p h v s]) ->
  (h = "Left of Normal Position" <-> below_1 p = true) /\
  (h = "Right of Normal Position" <-> above_10 p = true) /\
  (h = "Normal Position" <-> between_1_and_10 p = true) /\
  (h = "Left of Normal Position" \/ h = "Right of Normal Position"
   \/ h = "Normal Position").
Proof.
  intros H.
  destruct (process_frame_report_inv _ _ _ _ _ _ _ H)
    as (t & l & pre & d & _ & _ & _ & Hp & Hh & _ & _).
  apply offset_percentage_not_nan in Hp.
  rewrite horizontal_status_cases in Hh. subst h.
  destruct (below_1 p) eqn:H1.
  - pose proof (below_1_not_above_10 p H1) as H10. fold (above_10 p) in H10.
    rewrite H10.
    destruct (between_1_and_10 p) eqn:Hb;
      [apply between_not_below in Hb; congruence|].
    repeat split; try discriminate; auto.
  - destruct (above_10 p) eqn:H10.
    + destruct (between_1_and_10 p) eqn:Hb;
        [apply between_not_above in Hb; congruence|].
      repeat split; try discriminate; auto.
    + rewrite (neither_is_between p Hp H1 H10).
      repeat split; try discriminate; auto.
Qed.

Lemma C5_horizontal_status_thresholds_witness :
  ("Normal Position" = "Left of Normal Position"
     <-> below_1 Examples.five_percent = true) /\
  ("Normal Position" = "Right of Normal Position"
     <-> above_10 Examples.five_percent = true) /\
  ("Normal Position" = "Normal Position"
     <-> between_1_and_10 Examples.five_percent = true) /\
  ("Normal Position" = "Left of Normal Position"
   \/ "Normal Position" = "Right of Normal Position"
   \/ "Normal Position" = "Normal Position").
Proof.
  eapply (C5_horizontal_status_thresholds Examples.frame_640x480 Examples.model_right
            _ Examples.five_percent "Normal Position" "Right" "NORMAL LOGO").
  reflexivity.
Defined.

(** C6. For every frame in which topTether or logo is not detected,
    [process_frame] computes no offset percentage and assigns no status
    (nothing is reported, no measurement or status text is drawn), and it
    returns the annotated frame: the copy of the input with the middle
    reference line followed, for every detection row in iteration order, by
    its rectangle, its two corner texts, its midpoint circle and its "Mid"
    text; in particular the box of every detection is drawn. *)
Theorem C6_missing_feature_no_status (frame : Frame) (model : Model) :
  detected model "topTether" (detections frame model) = false \/
  detected model "logo" (detections frame model) = false ->
  exists af,
    process_frame frame model = Ok (af, []) /\
    base af = frame /\
    drawn af =
      Line (shape1 frame / 2, 0) (shape1 frame / 2, shape0 frame) (255, 0, 0) 1
        :: flat_map
             (fun r =>
                let x1 := py_int (row_x1 r) in
                let y1 := py_int (row_y1 r) in
                let x2 := py_int (row_x2 r) in
                let y2 := py_int (row_y2 r) in
                [ Rectangle (x1, y1) (x2, y2) (0, 255, 0) 2;
                  PutText (TxtPoint x1 y1) (x1, y1 - 30) 0.5 (0, 255, 0) 2;
                  PutText (TxtPoint x2 y2) (x2, y2 + 10) 0.5 (0, 255, 0) 2;
                  Circle ((x1 + x2) / 2, y1) 3 (0, 0, 255) (-1);
                  PutText (TxtMid ((x1 + x2) / 2) y1) ((x1 + x2) / 2, y1 - 10) 0.5
                    (0, 0, 255) 2 ])
             (detections frame model) /\
    (forall r, In r (detections frame model) ->
       In (Rectangle (py_int (row_x1 r), py_int (row_y1 r))
                     (py_int (row_x2 r), py_int (row_y2 r)) (0, 255, 0) 2)
          (drawn af)) /\
    List.length (drawn af) = (1 + 5 * List.length (detections frame model))%nat /\
    existsb is_status_op (drawn af) = false /\
    classification (process_frame frame model) = None.
Proof.
  intros H. rewrite (process_frame_missing frame model H).
  rewrite annotated_frame_after_loop. eexists. split; [reflexivity|].
  cbn [base drawn classification]. clear H.
  split; [reflexivity|]. split; [reflexivity|]. split; [|split; [|split]].
  - intros r Hr. right. apply in_flat_map. exists r. split; [exact Hr|].
    left. reflexivity.
  - cbn [List.length]. rewrite length_box_drawings. lia.
  - cbn [existsb is_status_op orb].
    induction (detections frame model) as [|r rows IH]; [reflexivity|].
    cbn [flat_map]. rewrite existsb_app, IH. reflexivity.
  - reflexivity.
Qed.

Lemma C6_missing_feature_no_status_witness :
  exists af,
    process_frame Examples.frame_640x480 Examples.model_tether_only = Ok (af, []) /\
    base af = Examples.frame_640x480 /\
    drawn af =
      Line (shape1 Examples.frame_640x480 / 2, 0) (shape1 Examples.frame_640x480 / 2, shape0 Examples.frame_640x480) (255, 0, 0) 1
        :: flat_map
             (fun r =>
                let x1 := py_int (row_x1 r) in
                let y1 := py_int (row_y1 r) in
                let x2 := py_int (row_x2 r) in
                let y2 := py_int (row_y2 r) in
                [ Rectangle (x1, y1) (x2, y2) (0, 255, 0) 2;
                  PutText (TxtPoint x1 y1) (x1, y1 - 30) 0.5 (0, 255, 0) 2;
                  PutText (TxtPoint x2 y2) (x2, y2 + 10) 0.5 (0, 255, 0) 2;
                  Circle ((x1 + x2) / 2, y1) 3 (0, 0, 255) (-1);
                  PutText (TxtMid ((x1 + x2) / 2) y1) ((x1 + x2) / 2, y1 - 10) 0.5
                    (0, 0, 255) 2 ])
             (detections Examples.frame_640x480 Examples.model_tether_only) /\
    (forall r, In r (detections Examples.frame_640x480 Examples.model_tether_only) ->
       In (Rectangle (py_int (row_x1 r), py_int (row_y1 r))
                     (py_int (row_x2 r), py_int (row_y2 r)) (0, 255, 0) 2)
          (drawn af)) /\
    List.length (drawn af) = (1 + 5 * List.length (detections Examples.frame_640x480 Examples.model_tether_only))%nat /\
    existsb is_status_op (drawn af) = false /\
    classification (process_frame Examples.frame_640x480 Examples.model_tether_only) = None.
Proof.
  apply (C6_missing_feature_no_status Examples.frame_640x480 Examples.model_tether_only).
  right. reflexivity.
Defined.

(** C7. Whenever a classification is produced (both features detected and
    [process_frame] returns), the status is one of the two labels
    "NORMAL LOGO" and "DEFECTIVE LOGO", which differ; it is the one that is
    reported and drawn. *)
Theorem C7_normal_or_defective (frame : Frame) (model : Model) (out : Output) :
  detected model "topTether" (detections frame model) = true ->
  detected model "logo" (detections frame model) = true ->
  process_frame frame model = Ok out ->
  exists p h v s c,
    snd out = [TxtReport p h v s] /\
    In (PutText (TxtPlain s) (10, shape0 frame - 20) 1.2 c 3) (drawn (fst out)) /\
    (s = "NORMAL LOGO" \/ s = "DEFECTIVE LOGO") /\
    "NORMAL LOGO" <> "DEFECTIVE LOGO".
Proof.
  intros Ht Hl H.
  destruct (process_frame_detected frame model Ht Hl)
    as (t & l & pre & d & _ & _ & _ & Hp & Hv).
  rewrite Hp, (position_block_eq _ _ _ _ _ _ Hv) in H.
  destruct (offset_percentage t l) as [p|e]; [|discriminate].
  cbn zeta in H. injection H as <-. cbn [fst snd].
  do 5 eexists. split; [reflexivity|]. split; [|split].
  - unfold draw. cbn [drawn]. apply in_or_app. right. cbn. tauto.
  - apply logo_decision_two_labels.
  - discriminate.
Qed.

Lemma C7_normal_or_defective_witness :
  exists out,
    process_frame Examples.frame_640x480 Examples.model_left = Ok out /\
    exists p h v s c,
      snd out = [TxtReport p h v s] /\
      In (PutText (TxtPlain s) (10, shape0 Examples.frame_640x480 - 20) 1.2 c 3)
         (drawn (fst out)) /\
      (s = "NORMAL LOGO" \/ s = "DEFECTIVE LOGO") /\
      "NORMAL LOGO" <> "DEFECTIVE LOGO".
Proof.
  eexists. split; [reflexivity|].
  apply (C7_normal_or_defective Examples.frame_640x480 Examples.model_left);
    reflexivity.
Defined.

(** C1, as amended. When [process_frame] classifies a frame, the label is
    a function of the offset percentage together with the last detection
    iterated: it is "NORMAL LOGO" exactly when [1 <= p <= 10], the x2 of the
    last row is right of the image middle and the class of the last row is
    neither "inverted_topTether" nor "inverted_logo"; otherwise it is
    "DEFECTIVE LOGO". *)
Theorem C1_classification_amended (frame : Frame) (model : Model)
    (af : AnnotatedFrame) (p : spec_float) (h v s : string) :
  process_frame frame model = Ok (af, [TxtReport p h v s]) ->
  exists pre d,
    detections frame model = pre ++ [d] /\
    s = (if between_1_and_10 p
            && (py_int (row_x2 d) >? shape1 frame / 2)
            && negb (names model (py_int (row_cls d)) =? "inverted_topTether")%string
            && negb (names model (py_int (row_cls d)) =? "inverted_logo")%string
         then "NORMAL LOGO" else "DEFECTIVE LOGO").
Proof.
  intros H.
  destruct (process_frame_report_inv _ _ _ _ _ _ _ H)
    as (t & l & pre & d & _ & _ & Hd & Hp & Hh & Hv & Hs).
  exists pre, d. split; [exact Hd|].
  apply offset_percentage_not_nan in Hp.
  rewrite Hs, logo_decision_label, Hh, Hv.
  rewrite (horizontal_status_normal_eqb p Hp), side_right_eqb. reflexivity.
Qed.

Lemma C1_classification_amended_witness :
  exists pre d,
    detections Examples.frame_640x480 Examples.model_right = pre ++ [d] /\
    "NORMAL LOGO" =
      (if between_1_and_10 Examples.five_percent
          && (py_int (row_x2 d) >? shape1 Examples.frame_640x480 / 2)
          && negb (names Examples.model_right (py_int (row_cls d))
                     =? "inverted_topTether")%string
          && negb (names Examples.model_right (py_int (row_cls d))
                     =? "inverted_logo")%string
       then "NORMAL LOGO" else "DEFECTIVE LOGO").
Proof.
  eapply (C1_classification_amended Examples.frame_640x480 Examples.model_right
            _ Examples.five_percent "Normal Position" "Right" "NORMAL LOGO").
  reflexivity.
Defined.

(** C1, as stated, fails: two frames with the same offset percentage (5 %)
    are classified differently, because the logo box ends left of the image
    middle in one and right of it in the other. *)
Lemma C1_same_percentage_different_classification :
  classification (process_frame Examples.frame_640x480 Examples.model_left)
    = Some (Examples.five_percent, "DEFECTIVE LOGO") /\
  classification (process_frame Examples.frame_640x480 Examples.model_right)
    = Some (Examples.five_percent, "NORMAL LOGO") /\
  ~ (forall (frame1 frame2 : Frame) (model1 model2 : Model)
            (p : spec_float) (s1 s2 : string),
       classification (process_frame frame1 model1) = Some (p, s1) ->
       classification (process_frame frame2 model2) = Some (p, s2) ->
       s1 = s2).
Proof.
  assert (Hl : classification (process_frame Examples.frame_640x480 Examples.model_left)
               = Some (Examples.five_percent, "DEFECTIVE LOGO")) by reflexivity.
  assert (Hr : classification (process_frame Examples.frame_640x480 Examples.model_right)
               = Some (Examples.five_percent, "NORMAL LOGO")) by reflexivity.
  repeat split; try assumption.
  intros H. specialize (H _ _ _ _ _ _ _ Hl Hr). discriminate.
Qed.

(** C8. The side status and the inverted-class check of the final decision
    come from the last detection iterated, whatever its class: the side is
    "Right" exactly when the x2 of the last row exceeds the image middle,
    and the class compared with "inverted_topTether" and "inverted_logo" is
    the class name of the last row. *)
Theorem C8_side_and_class_of_last_detection (frame : Frame) (model : Model)
    (pre : list Row) (d : Row)
    (af : AnnotatedFrame) (p : spec_float) (h v s : string) :
  detections frame model = pre ++ [d] ->
  process_frame frame model = Ok (af, [TxtReport p h v s]) ->
  v = (if py_int (row_x2 d) >? shape1 frame / 2 then "Right" else "Left") /\
  s = (if ((h =? "Normal Position") && (v =? "Right")
           && negb (names model (py_int (row_cls d)) =? "inverted_topTether")
           && negb (names model (py_int (row_cls d)) =? "inverted_logo"))%string
       then "NORMAL LOGO" else "DEFECTIVE LOGO").
Proof.
  intros Hd H.
  destruct (process_frame_report_inv _ _ _ _ _ _ _ H)
    as (t & l & pre' & d' & _ & _ & Hd' & _ & _ & Hv & Hs).
  rewrite Hd in Hd'. apply app_inj_tail in Hd' as [_ <-].
  split; [exact Hv|]. now rewrite Hs, logo_decision_label.
Qed.

Lemma C8_side_and_class_of_last_detection_witness :
  "Right" = (if py_int (row_x2 (Examples.row 400 10 500 20 7))
                >? shape1 Examples.frame_640x480 / 2 then "Right" else "Left") /\
  "NORMAL LOGO" =
    (if (("Normal Position" =? "Normal Position") && ("Right" =? "Right")
         && negb (names Examples.model_two_tethers
                    (py_int (row_cls (Examples.row 400 10 500 20 7)))
                  =? "inverted_topTether")
         && negb (names Examples.model_two_tethers
                    (py_int (row_cls (Examples.row 400 10 500 20 7)))
                  =? "inverted_logo"))%string
     then "NORMAL LOGO" else "DEFECTIVE LOGO").
Proof.
  eapply (C8_side_and_class_of_last_detection
            Examples.frame_640x480 Examples.model_two_tethers
            [ Examples.row 0 50 100 100 0; Examples.row 180 60 330 90 1;
              Examples.row 200 50 300 100 0 ]
            (Examples.row 400 10 500 20 7)
            _ Examples.five_percent "Normal Position" "Right" "NORMAL LOGO");
    reflexivity.
Defined.

(** C9. The division by the tether width is unguarded: whenever both
    classes are present and the stored topTether box has [t_x1 = t_x2],
    [process_frame] raises ZeroDivisionError instead of returning a frame. *)
Theorem C9_zero_width_division (frame : Frame) (model : Model) (t : Box) :
  last_of_class model "topTether" (detections frame model) = Some t ->
  detected model "logo" (detections frame model) = true ->
  bx1 t = bx2 t ->
  process_frame frame model = Raise ZeroDivisionError.
Proof.
  intros Et Hl Hw.
  assert (Ht : detected model "topTether" (detections frame model) = true)
    by (apply last_of_class_detected; now exists t).
  destruct (process_frame_detected frame model Ht Hl)
    as (t' & l & pre & d & Et' & _ & _ & Hp & Hv).
  rewrite Et in Et'. injection Et' as <-.
  rewrite Hp, (position_block_eq _ _ _ _ _ _ Hv).
  unfold offset_percentage, PyFloat.truediv.
  replace (bx2 t - bx1 t) with 0 by lia. reflexivity.
Qed.

Lemma C9_zero_width_division_witness :
  exists frame model t,
    last_of_class model "topTether" (detections frame model) = Some t /\
    detected model "logo" (detections frame model) = true /\
    bx1 t = bx2 t /\
    process_frame frame model = Raise ZeroDivisionError.
Proof.
  exists Examples.frame_640x480, Examples.model_zero_width,
         {| bx1 := 200; by1 := 50; bx2 := 200; by2 := 100 |}.
  split; [reflexivity|]. split; [reflexivity|]. split; [reflexivity|].
  apply (C9_zero_width_division Examples.frame_640x480 Examples.model_zero_width
           {| bx1 := 200; by1 := 50; bx2 := 200; by2 := 100 |});
    reflexivity.
Defined.

(** C10. When several rows have the same class (topTether or logo), the
    coordinates stored for that class are those of the last such row in
    iteration order, earlier ones being overwritten; and the offset
    percentage that [process_frame] reports is computed from the two stored
    boxes. *)
Theorem C10_last_detection_of_class_wins (frame : Frame) (model : Model)
    (pre post : list Row) (d : Row) :
  detections frame model = pre ++ d :: post ->
  (row_class model d = "topTether" ->
   detected model "topTether" post = false ->
   t_box (locals_after_loop frame model) = Some (row_box d)) /\
  (row_class model d = "logo" ->
   detected model "logo" post = false ->
   l_box (locals_after_loop frame model) = Some (row_box d)) /\
  (forall af p h v s,
     process_frame frame model = Ok (af, [TxtReport p h v s]) ->
     exists t l,
       t_box (locals_after_loop frame model) = Some t /\
       l_box (locals_after_loop frame model) = Some l /\
       offset_percentage t l = Ok p).
Proof.
  intros Hd. split; [|split].
  - intros Hc Hpost. rewrite t_box_after_loop, Hd.
    now apply last_of_class_split.
  - intros Hc Hpost. rewrite l_box_after_loop, Hd.
    now apply last_of_class_split.
  - intros af p h v s H.
    destruct (process_frame_report_inv _ _ _ _ _ _ _ H)
      as (t & l & _ & _ & Et & El & _ & Hp & _).
    exists t, l. now rewrite t_box_after_loop, l_box_after_loop.
Qed.

Lemma C10_last_detection_of_class_wins_witness :
  t_box (locals_after_loop Examples.frame_640x480 Examples.model_two_tethers)
    = Some {| bx1 := 200; by1 := 50; bx2 := 300; by2 := 100 |} /\
  classification (process_frame Examples.frame_640x480 Examples.model_two_tethers)
    = Some (Examples.five_percent, "NORMAL LOGO").
Proof.
  split; [|reflexivity].
  apply (C10_last_detection_of_class_wins
           Examples.frame_640x480 Examples.model_two_tethers
           [ Examples.row 0 50 100 100 0; Examples.row 180 60 330 90 1 ]
           [ Examples.row 400 10 500 20 7 ]
           (Examples.row 200 50 300 100 0) eq_refl); reflexivity.
Defined.

(** * main: the catch-all and the clean-up *)

Section MainFacts.

Variable w : World.

(** An exception that an [except] clause catches is only printed; any other
    one stays pending. *)
Lemma handlers_return (e : exn) :
  (exists line, handlers e = ([EvPrint line], Ok tt)) \/
  (handlers e = ([], Raise e) /\ is_Exception e = false /\ e <> KeyboardInterrupt).
Proof.
  destruct e; try (left; eexists; reflexivity).
  right. repeat split. discriminate.
Qed.

Lemma finally_bound (picam2 : Camera) :
  stop w = Ok tt -> destroyAllWindows w = Ok tt ->
  finally w (Some picam2) = ([EvCameraStop; EvDestroyAllWindows], Ok tt).
Proof. intros Hs Hd. unfold finally. rewrite Hs, Hd. reflexivity. Qed.

(** Once [picam2] is bound and the two clean-up calls return, the camera is
    stopped and the windows are destroyed last, and an exception leaves
    [main] only if no [except] clause catches it. *)
Lemma main_cleans_up_when_camera_bound
    (tr0 : list Event) (picam2 : Camera) (fuel : nat)
    (tr : list Event) (r : result unit) :
  initialize_camera w = (tr0, Ok picam2) ->
  stop w = Ok tt -> destroyAllWindows w = Ok tt ->
  main w fuel = Some (tr, r) ->
  (r = Ok tt \/ exists e, r = Raise e /\ is_Exception e = false /\ e <> KeyboardInterrupt) /\
  exists tr', tr = tr' ++ [EvCameraStop; EvDestroyAllWindows].
Proof.
  intros Hi Hs Hd. unfold main. rewrite Hi.
  destruct (try_rest w fuel) as [[tr1 r1]|]; [|discriminate].
  unfold try_except_finally. rewrite (finally_bound picam2 Hs Hd).
  destruct r1 as [[]|e].
  - intros [= <- <-]. split; [now left|].
    exists (tr0 ++ tr1). cbn [app]. reflexivity.
  - destruct (handlers_return e) as [[line ->]|(-> & He & Hk)];
      intros [= <- <-].
    + split; [now left|].
      exists ((tr0 ++ tr1) ++ [EvPrint line]). now rewrite <- !app_assoc.
    + split; [right; now exists e|].
      exists (tr0 ++ tr1). cbn [app]. reflexivity.
Qed.

(** When [initialize_camera] raises, the clean-up fails on the unbound
    [picam2]: that error leaves [main]. *)
Lemma main_when_initialize_camera_raises
    (tr0 : list Event) (e : exn) (fuel : nat) :
  initialize_camera w = (tr0, Raise e) ->
  exists tr,
    main w fuel = Some (tr, Raise (UnboundLocalError "picam2")).
Proof.
  intros Hi. unfold main. rewrite Hi. unfold try_except_finally.
  destruct (handlers e) as [tr_h r_h]. cbn [finally]. eexists. reflexivity.
Qed.

(** The loop is left at the first pass that breaks or raises. *)
Lemma while_true_leaves (model : Model) (k : nat) :
  forall i fuel,
    (forall j, (j < k)%nat -> exists tr, iteration w model (i + j) = (tr, Ok false)) ->
    (forall tr, iteration w model (i + k) <> (tr, Ok false)) ->
    (k < fuel)%nat ->
    exists out, while_true w model fuel i = Some out.
Proof.
  induction k as [|k IH]; intros i fuel Hbefore Hk Hfuel.
  - destruct fuel as [|fuel]; [lia|]. cbn [while_true].
    rewrite Nat.add_0_r in Hk.
    destruct (iteration w model i) as [tr [[]|e]]; try (eexists; reflexivity).
    now destruct (Hk tr).
  - destruct fuel as [|fuel]; [lia|]. cbn [while_true].
    destruct (Hbefore 0%nat ltac:(lia)) as [tr Htr].
    rewrite Nat.add_0_r in Htr. rewrite Htr.
    destruct (IH (S i) fuel) as [[tr' r] ->]; [| |lia|eexists; reflexivity].
    + intros j Hj. replace (S i + j)%nat with (i + S j)%nat by lia.
      apply Hbefore. lia.
    + intros tr'. replace (S i + k)%nat with (i + S k)%nat by lia. apply Hk.
Qed.

(** [main] ends as soon as the model fails to load or the loop is left. *)
Lemma main_terminates (k fuel : nat) :
  (forall model, YOLO w "best.pt" = Ok model ->
     (forall j, (j < k)%nat -> exists tr, iteration w model j = (tr, Ok false)) /\
     (forall tr, iteration w model k <> (tr, Ok false))) ->
  (k < fuel)%nat ->
  exists out, main w fuel = Some out.
Proof.
  intros Hloop Hfuel. unfold main.
  destruct (initialize_camera w) as [tr0 [picam2|e]]; [|eexists; reflexivity].
  unfold try_rest, call.
  destruct (YOLO w "best.pt") as [model|e] eqn:Hm; [|eexists; reflexivity].
  destruct (Hloop model eq_refl) as [Hbefore Hk].
  destruct (while_true_leaves model k 0 fuel Hbefore Hk Hfuel) as [[tr r] ->].
  eexists; reflexivity.
Qed.

End MainFacts.

(** A run that ends with the 'q' key in the second pass. *)
Example main_world_ok :
  exists af,
    process_frame Examples.frame_640x480 Examples.model_right =
      Ok (af, [ TxtReport Examples.five_percent "Normal Position" "Right" "NORMAL LOGO" ]) /\
    main Examples.world_ok 2 =
      Some ([ EvCameraStart;
              EvPrint (TxtPlain "Model loaded successfully");
              EvPrint (TxtPlain "Starting position detection. Press 'q' to exit.");
              EvPrint (TxtReport Examples.five_percent "Normal Position" "Right" "NORMAL LOGO");
              EvShow "Position Detection" af;
              EvPrint (TxtReport Examples.five_percent "Normal Position" "Right" "NORMAL LOGO");
              EvShow "Position Detection" af;
              EvCameraStop;
              EvDestroyAllWindows ],
            Ok tt).
Proof. eexists. split; reflexivity. Qed.

(** C3. An exception raised during camera initialization is caught and
    reported by the catch-all, but then the clean-up raises
    UnboundLocalError on [picam2], and that exception leaves [main]. *)
Theorem C3_camera_failure_escapes_main (fuel : nat) :
  main Examples.world_no_camera fuel =
  Some ([ EvPrint (TxtPlain "An error occurred: Camera not found") ],
        Raise (UnboundLocalError "picam2")).
Proof. reflexivity. Qed.

(** C4. Interrupted during the warm-up, after the camera was started,
    [main] ends without stopping the camera and without destroying the
    windows: the clean-up raises before it reaches either call. *)
Theorem C4_interrupted_warm_up_skips_clean_up (fuel : nat) :
  main Examples.world_interrupted_warm_up fuel =
  Some ([ EvCameraStart;
          EvPrint (TxtPlain (newline ++ "Exiting program...")%string) ],
        Raise (UnboundLocalError "picam2")).
Proof. reflexivity. Qed.

(** * Further properties of process_frame *)

Section ProcessFrameMore.

Variables (frame : Frame) (model : Model).

Lemma position_block_zero_width (s0 : Locals) (t l : Box) :
  bx1 t = bx2 t ->
  position_block frame (shape1 frame / 2) s0 t l = Raise ZeroDivisionError.
Proof.
  intros Hw. unfold position_block, PyFloat.truediv.
  replace (bx2 t - bx1 t) with 0 by lia. reflexivity.
Qed.

Lemma offset_percentage_raises (t l : Box) (e : exn) :
  offset_percentage t l = Raise e ->
  (e = ZeroDivisionError /\ bx1 t = bx2 t) \/
  (e = OverflowError /\ bx1 t <> bx2 t).
Proof.
  unfold offset_percentage, PyFloat.truediv.
  destruct (Z.eqb_spec (bx2 t - bx1 t) 0) as [H0|H0]; cbn [bind].
  - intros [= <-]. left. split; [reflexivity | lia].
  - destruct (PyFloat.is_infinity _); cbn [bind]; [|discriminate].
    intros [= <-]. right. split; [reflexivity | lia].
Qed.

End ProcessFrameMore.

(** X1. Whenever both features are detected, at least one row was
    iterated, so the loop variables that lines 86 and 89 read after the loop
    are bound, to the coordinates and the class name of the last row; and
    [process_frame] never fails on an unbound [x2] or [class_name]. *)
Theorem X1_loop_variables_bound_when_read (frame : Frame) (model : Model) :
  detected model "topTether" (detections frame model) = true ->
  detected model "logo" (detections frame model) = true ->
  (exists pre d,
     detections frame model = pre ++ [d] /\
     loop_vars (locals_after_loop frame model) =
       Some ({| bx1 := py_int (row_x1 d); by1 := py_int (row_y1 d);
                bx2 := py_int (row_x2 d); by2 := py_int (row_y2 d) |},
             names model (py_int (row_cls d)))) /\
  (forall name, process_frame frame model <> Raise (UnboundLocalError name)).
Proof.
  intros Ht Hl.
  destruct (process_frame_detected frame model Ht Hl)
    as (t & l & pre & d & _ & _ & Hd & Hp & Hv).
  split; [now exists pre, d|].
  intros name H. rewrite Hp, (position_block_eq _ _ _ _ _ _ Hv) in H.
  destruct (offset_percentage t l) as [p|e] eqn:E; [discriminate|].
  injection H as ->.
  destruct (offset_percentage_raises t l _ E) as [[? _]|[? _]]; discriminate.
Qed.

Lemma X1_loop_variables_bound_when_read_witness :
  (exists pre d,
     detections Examples.frame_640x480 Examples.model_two_tethers = pre ++ [d] /\
     loop_vars (locals_after_loop Examples.frame_640x480 Examples.model_two_tethers) =
       Some ({| bx1 := py_int (row_x1 d); by1 := py_int (row_y1 d);
                bx2 := py_int (row_x2 d); by2 := py_int (row_y2 d) |},
             names Examples.model_two_tethers (py_int (row_cls d)))) /\
  (forall name,
     process_frame Examples.frame_640x480 Examples.model_two_tethers
       <> Raise (UnboundLocalError name)).
Proof.
  apply (X1_loop_variables_bound_when_read
           Examples.frame_640x480 Examples.model_two_tethers);
    reflexivity.
Defined.

(** X2. Whenever [process_frame] returns, the input frame itself is not
    drawn on (the result is based on a copy), and the drawing calls are, in
    order: the middle line; for every detection row in iteration order,
    whatever its class, its rectangle, its two corner texts, its midpoint
    circle and its "Mid" text; and then either nothing, when nothing is
    printed, or the seven texts of the measurements and of the statuses
    that the one printed report holds. *)
Theorem X2_drawing_calls_in_order (frame : Frame) (model : Model)
    (af : AnnotatedFrame) (out : list Text) :
  process_frame frame model = Ok (af, out) ->
  base af = frame /\
  exists status,
    drawn af =
      Line (shape1 frame / 2, 0) (shape1 frame / 2, shape0 frame) (255, 0, 0) 1
        :: flat_map
             (fun r =>
                let x1 := py_int (row_x1 r) in
                let y1 := py_int (row_y1 r) in
                let x2 := py_int (row_x2 r) in
                let y2 := py_int (row_y2 r) in
                [ Rectangle (x1, y1) (x2, y2) (0, 255, 0) 2;
                  PutText (TxtPoint x1 y1) (x1, y1 - 30) 0.5 (0, 255, 0) 2;
                  PutText (TxtPoint x2 y2) (x2, y2 + 10) 0.5 (0, 255, 0) 2;
                  Circle ((x1 + x2) / 2, y1) 3 (0, 0, 255) (-1);
                  PutText (TxtMid ((x1 + x2) / 2) y1) ((x1 + x2) / 2, y1 - 10) 0.5
                    (0, 0, 255) 2 ])
             (detections frame model)
        ++ status /\
    ((out = [] /\ status = []) \/
     exists p h v s t_mid_x l_mid_x width_t h_color logo_color,
       out = [ TxtReport p h v s ] /\
       status =
         [ PutText (TxtTMid t_mid_x) (10, 30) 0.7 (255, 0, 0) 2;
           PutText (TxtLMid l_mid_x) (10, 60) 0.7 (255, 0, 0) 2;
           PutText (TxtWidth width_t) (10, 90) 0.7 (255, 0, 0) 2;
           PutText (TxtPct p) (10, 120) 0.7 (255, 0, 0) 2;
           PutText (TxtHStatus h) (10, 150) 0.7 h_color 2;
           PutText (TxtVPosition v) (10, 180) 0.7 (255, 165, 0) 2;
           PutText (TxtPlain s) (10, shape0 frame - 20) 1.2 logo_color 3 ]).
Proof.
  intros H.
  destruct (detected model "topTether" (detections frame model)) eqn:Ht;
    [|rewrite process_frame_missing in H by (now left); injection H as <- <-;
      rewrite annotated_frame_after_loop; split; [reflexivity|];
      exists []; cbn [base drawn]; rewrite app_nil_r; split; [reflexivity | now left]].
  destruct (detected model "logo" (detections frame model)) eqn:Hl;
    [|rewrite process_frame_missing in H by (now right); injection H as <- <-;
      rewrite annotated_frame_after_loop; split; [reflexivity|];
      exists []; cbn [base drawn]; rewrite app_nil_r; split; [reflexivity | now left]].
  destruct (process_frame_detected frame model Ht Hl)
    as (t & l & pre & d & _ & _ & _ & Hp & Hv).
  rewrite Hp, (position_block_eq _ _ _ _ _ _ Hv) in H.
  destruct (offset_percentage t l) as [p|e]; [|discriminate].
  cbn zeta in H. injection H as <- <-.
  rewrite annotated_frame_after_loop. unfold draw. cbn [base drawn].
  split; [reflexivity|]. eexists. split; [reflexivity|].
  right. do 9 eexists. split; reflexivity.
Qed.

Lemma X2_drawing_calls_in_order_witness :
  exists af out,
    process_frame Examples.frame_640x480 Examples.model_two_tethers = Ok (af, out) /\
    base af = Examples.frame_640x480 /\
    exists status,
      drawn af =
        Line (shape1 Examples.frame_640x480 / 2, 0) (shape1 Examples.frame_640x480 / 2, shape0 Examples.frame_640x480) (255, 0, 0) 1
          :: flat_map
               (fun r =>
                  let x1 := py_int (row_x1 r) in
                  let y1 := py_int (row_y1 r) in
                  let x2 := py_int (row_x2 r) in
                  let y2 := py_int (row_y2 r) in
                  [ Rectangle (x1, y1) (x2, y2) (0, 255, 0) 2;
                    PutText (TxtPoint x1 y1) (x1, y1 - 30) 0.5 (0, 255, 0) 2;
                    PutText (TxtPoint x2 y2) (x2, y2 + 10) 0.5 (0, 255, 0) 2;
                    Circle ((x1 + x2) / 2, y1) 3 (0, 0, 255) (-1);
                    PutText (TxtMid ((x1 + x2) / 2) y1) ((x1 + x2) / 2, y1 - 10) 0.5
                      (0, 0, 255) 2 ])
               (detections Examples.frame_640x480 Examples.model_two_tethers)
          ++ status /\
      ((out = [] /\ status = []) \/
       exists p h v s t_mid_x l_mid_x width_t h_color logo_color,
         out = [ TxtReport p h v s ] /\
         status =
           [ PutText (TxtTMid t_mid_x) (10, 30) 0.7 (255, 0, 0) 2;
             PutText (TxtLMid l_mid_x) (10, 60) 0.7 (255, 0, 0) 2;
             PutText (TxtWidth width_t) (10, 90) 0.7 (255, 0, 0) 2;
             PutText (TxtPct p) (10, 120) 0.7 (255, 0, 0) 2;
             PutText (TxtHStatus h) (10, 150) 0.7 h_color 2;
             PutText (TxtVPosition v) (10, 180) 0.7 (255, 165, 0) 2;
             PutText (TxtPlain s) (10, shape0 Examples.frame_640x480 - 20) 1.2 logo_color 3 ]).
Proof.
  do 2 eexists. split; [reflexivity|].
  apply (X2_drawing_calls_in_order Examples.frame_640x480 Examples.model_two_tethers).
  reflexivity.
Defined.

(** ** What the report depends on *)

Section ReportDependencies.

Lemma last_detection_last (model : Model) (pre : list Row) (d : Row) :
  last_detection model (pre ++ [d]) = Some (py_int (row_x2 d), row_class model d).
Proof.
  induction pre as [|r pre IH]; [reflexivity|].
  cbn [app last_detection]. rewrite IH.
  destruct (pre ++ [d]) eqn:E; [|reflexivity].
  now destruct pre.
Qed.

Lemma printed_as_report_of_columns (frame : Frame) (model : Model) :
  printed (process_frame frame model) =
  report_of_columns (shape1 frame)
    (option_map box_columns (last_of_class model "topTether" (detections frame model)))
    (option_map box_columns (last_of_class model "logo" (detections frame model)))
    (last_detection model (detections frame model)).
Proof.
  destruct (detected model "topTether" (detections frame model)) eqn:Ht.
  - destruct (detected model "logo" (detections frame model)) eqn:Hl.
    + destruct (process_frame_detected frame model Ht Hl)
        as (t & l & pre & d & Et & El & Hd & Hp & Hv).
      rewrite Hp, (position_block_eq _ _ _ _ _ _ Hv), Et, El, Hd, last_detection_last.
      unfold report_of_columns, offset_percentage, midpoint. cbn [option_map box_columns].
      destruct (PyFloat.truediv _ _); reflexivity.
    + rewrite process_frame_missing by (now right).
      apply last_of_class_not_detected in Hl. rewrite Hl. cbn.
      now destruct (last_of_class model "topTether" _) as [[]|].
  - rewrite process_frame_missing by (now left).
    apply last_of_class_not_detected in Ht. now rewrite Ht.
Qed.

Lemma same_columns_last_of_class (model model' : Model) (c : string)
    (rows rows' : list Row) :
  (forall cls, names model cls = names model' cls) ->
  Forall2 same_columns rows rows' ->
  option_map box_columns (last_of_class model c rows) =
  option_map box_columns (last_of_class model' c rows').
Proof.
  intros Hn H. induction H as [|r r' rows rows' (H1 & H2 & Hc) _ IH]; [reflexivity|].
  cbn [last_of_class].
  destruct (last_of_class model c rows), (last_of_class model' c rows');
    try discriminate; try exact IH.
  unfold row_class. rewrite Hc, Hn.
  destruct (names model' _ =? c)%string; [|reflexivity].
  cbn. unfold box_columns, row_box. cbn. now rewrite H1, H2.
Qed.

Lemma same_columns_last_detection (model model' : Model) (rows rows' : list Row) :
  (forall cls, names model cls = names model' cls) ->
  Forall2 same_columns rows rows' ->
  last_detection model rows = last_detection model' rows'.
Proof.
  intros Hn H. induction H as [|r r' rows rows' (H1 & H2 & Hc) Hrest IH]; [reflexivity|].
  cbn [last_detection]. destruct Hrest as [|r2 r2' rows2 rows2' Hr2 Hrest2].
  - unfold row_class. now rewrite H2, Hc, Hn.
  - exact IH.
Qed.

End ReportDependencies.

(** X3. What [process_frame] prints (a report, nothing, or the exception it
    raises) depends only on the image width, on the last topTether box and
    the last logo box, and on the x2 and class of the last row: rows of
    other classes, inverted ones included, and earlier rows of the two
    classes change nothing unless they come last. *)
Theorem X3_report_depends_on_last_boxes_and_last_row
    (frame frame' : Frame) (model model' : Model) :
  shape1 frame = shape1 frame' ->
  last_of_class model "topTether" (detections frame model) =
    last_of_class model' "topTether" (detections frame' model') ->
  last_of_class model "logo" (detections frame model) =
    last_of_class model' "logo" (detections frame' model') ->
  last_detection model (detections frame model) =
    last_detection model' (detections frame' model') ->
  printed (process_frame frame model) = printed (process_frame frame' model').
Proof.
  intros Hw Ht Hl Hd.
  rewrite !printed_as_report_of_columns. now rewrite Hw, Ht, Hl, Hd.
Qed.

Lemma X3_report_depends_on_last_boxes_and_last_row_witness :
  printed (process_frame Examples.frame_640x480 Examples.model_right) =
  printed (process_frame Examples.frame_640x480 Scenarios.model_right_after_inverted).
Proof.
  apply (X3_report_depends_on_last_boxes_and_last_row
           Examples.frame_640x480 Examples.frame_640x480
           Examples.model_right Scenarios.model_right_after_inverted);
    reflexivity.
Defined.

(** X4. The report does not depend on the vertical coordinates, on the
    confidences, on the pixels or height of the frame, or on the fractional
    part of the coordinates: two detection results whose rows agree on
    [int(x1)], [int(x2)] and [int(cls)], under the same class table and
    image width, print the same. *)
Theorem X4_report_ignores_rows_heights_and_confidence
    (frame frame' : Frame) (model model' : Model) :
  shape1 frame = shape1 frame' ->
  (forall cls, names model cls = names model' cls) ->
  Forall2 same_columns (detections frame model) (detections frame' model') ->
  printed (process_frame frame model) = printed (process_frame frame' model').
Proof.
  intros Hw Hn H.
  rewrite !printed_as_report_of_columns.
  rewrite Hw, (same_columns_last_of_class model model' "topTether" _ _ Hn H),
    (same_columns_last_of_class model model' "logo" _ _ Hn H),
    (same_columns_last_detection model model' _ _ Hn H).
  reflexivity.
Qed.

Lemma X4_report_ignores_rows_heights_and_confidence_witness :
  printed (process_frame Examples.frame_640x480 Examples.model_right) =
  printed (process_frame
             {| shape0 := 1; shape1 := 640; pixels := [7] |}
             Scenarios.model_right_shifted).
Proof.
  apply (X4_report_ignores_rows_heights_and_confidence
           Examples.frame_640x480 {| shape0 := 1; shape1 := 640; pixels := [7] |}
           Examples.model_right Scenarios.model_right_shifted).
  - reflexivity.
  - reflexivity.
  - repeat constructor.
Defined.

(** ** The sign of the percentage *)

Section PercentageSign.

(** Rounding a non-negative mantissa keeps the sign it is given. *)
Lemma binary_round_aux_sign (sx : bool) (mx ex : Z) (lx : location) :
  0 <= mx ->
  match binary_round_aux PyFloat.prec PyFloat.emax sx mx ex lx with
  | S754_zero s | S754_infinity s | S754_finite s _ _ => s = sx
  | S754_nan => False
  end.
Proof.
  intros H. unfold binary_round_aux.
  pose proof (shr_fexp_nonneg mx ex lx H) as H1.
  destruct (shr_fexp PyFloat.prec PyFloat.emax mx ex lx) as [mrs' e'].
  cbn [fst] in H1.
  pose proof (shr_fexp_nonneg _ e' loc_Exact
                (round_nearest_even_nonneg _ (loc_of_shr_record mrs') H1)) as H2.
  destruct (shr_fexp PyFloat.prec PyFloat.emax
              (round_nearest_even (shr_m mrs') (loc_of_shr_record mrs')) e' loc_Exact)
    as [mrs'' e''].
  cbn [fst] in H2.
  destruct (shr_m mrs'') as [|m|m]; [reflexivity| |lia].
  destruct (e'' <=? PyFloat.emax - PyFloat.prec); reflexivity.
Qed.

(** A negative number or a zero is below 1. *)
Lemma negative_below_1 (x : spec_float) :
  match x with
  | S754_zero _ => True
  | S754_infinity s | S754_finite s _ _ => s = true
  | S754_nan => False
  end ->
  below_1 x = true.
Proof.
  unfold below_1. rewrite of_int_1.
  destruct x as [s|s| |s m e]; intros H; try contradiction; subst; reflexivity.
Qed.

(** A quotient of a non-positive by a positive integer gives a percentage
    below 1. *)
Lemma truediv_nonpos_below_1 (a b : Z) (q : spec_float) :
  PyFloat.truediv a b = Ok q -> a <= 0 -> 0 < b ->
  below_1 (PyFloat.mul q (PyFloat.of_int 100)) = true.
Proof.
  intros H Ha Hb. pose proof (truediv_finite _ _ _ H) as Hf.
  assert (Hq : match q with
               | S754_zero _ => True
               | S754_infinity s | S754_finite s _ _ => s = true
               | S754_nan => False
               end).
  { unfold PyFloat.truediv in H. destruct (Z.eqb_spec b 0); [lia|].
    destruct (PyFloat.is_infinity _); [discriminate|]. injection H as <-.
    destruct a as [|pa|pa], b as [|pb|pb]; try lia; [exact I|].
    cbn [PyFloat.exact SFdiv].
    pose proof (SFdiv_core_binary_nonneg pa pb 0 0) as Hn.
    destruct (SFdiv_core_binary _ _ (Zpos pa) 0 (Zpos pb) 0) as [[mz ez] lz].
    cbn [fst] in Hn.
    pose proof (binary_round_aux_sign (xorb true false) mz ez lz Hn) as Hs.
    destruct (binary_round_aux _ _ _ mz ez lz); try exact I; exact Hs. }
  apply negative_below_1. rewrite of_int_100. unfold PyFloat.mul.
  destruct q as [s|s| |s m e]; try discriminate; try contradiction.
  - exact I.
  - subst s. cbn [SFmul].
    pose proof (binary_round_aux_sign (xorb true false)
                  (Zpos (m * 7036874417766400)) (e + -46) loc_Exact ltac:(lia)) as Hs.
    destruct (binary_round_aux _ _ _ _ _ _); try exact I; exact Hs.
Qed.

End PercentageSign.

(** X5. When the stored topTether box has positive width and the logo
    midpoint is not right of the tether midpoint, the report is
    "Left of Normal Position" and "DEFECTIVE LOGO", whatever the last row
    and the image width are. *)
Theorem X5_logo_not_right_of_tether_is_defective (frame : Frame) (model : Model)
    (t l : Box) (out : Output) :
  last_of_class model "topTether" (detections frame model) = Some t ->
  last_of_class model "logo" (detections frame model) = Some l ->
  bx1 t < bx2 t ->
  midpoint l <= midpoint t ->
  process_frame frame model = Ok out ->
  exists p v,
    snd out = [ TxtReport p "Left of Normal Position" v "DEFECTIVE LOGO" ].
Proof.
  intros Et El Hw Hm H.
  assert (Ht : detected model "topTether" (detections frame model) = true)
    by (apply last_of_class_detected; now exists t).
  assert (Hl : detected model "logo" (detections frame model) = true)
    by (apply last_of_class_detected; now exists l).
  destruct (process_frame_detected frame model Ht Hl)
    as (t' & l' & pre & d & Et' & El' & _ & Hp & Hv).
  rewrite Et in Et'. rewrite El in El'. injection Et' as <-. injection El' as <-.
  rewrite Hp, (position_block_eq _ _ _ _ _ _ Hv) in H.
  destruct (offset_percentage t l) as [p|e] eqn:E; [|discriminate].
  cbn zeta in H. injection H as <-. cbn [snd].
  assert (Hb : below_1 p = true).
  { unfold offset_percentage in E.
    destruct (PyFloat.truediv _ _) as [q|e] eqn:Eq; [|discriminate].
    injection E as <-. apply (truediv_nonpos_below_1 _ _ _ Eq); lia. }
  rewrite horizontal_status_cases, Hb, logo_decision_label. cbn [String.eqb andb].
  do 2 eexists. reflexivity.
Qed.

Lemma X5_logo_not_right_of_tether_is_defective_witness :
  exists out,
    process_frame Examples.frame_640x480 Scenarios.model_logo_left = Ok out /\
    exists p v,
      snd out = [ TxtReport p "Left of Normal Position" v "DEFECTIVE LOGO" ].
Proof.
  eexists. split; [reflexivity|].
  apply (X5_logo_not_right_of_tether_is_defective
           Examples.frame_640x480 Scenarios.model_logo_left
           {| bx1 := 200; by1 := 50; bx2 := 300; by2 := 100 |}
           {| bx1 := 150; by1 := 60; bx2 := 330; by2 := 90 |});
    try reflexivity; cbn; lia.
Defined.

(** X6. For a box with [x1 <= x2] the midpoint that is marked (the red
    circle and its "Mid" text) lies within the box: [x1 <= mid_x <= x2];
    for a box given with [x2 < x1] it lies in [x2 <= mid_x < x1]. *)
Theorem X6_marked_midpoint_within_box (b : Box) :
  In (Circle (midpoint b, by1 b) 3 red (-1)) (box_drawing b) /\
  In (PutText (TxtMid (midpoint b) (by1 b)) (midpoint b, by1 b - 10) 0.5 red 2)
     (box_drawing b) /\
  (bx1 b <= bx2 b -> bx1 b <= midpoint b <= bx2 b) /\
  (bx2 b < bx1 b -> bx2 b <= midpoint b < bx1 b).
Proof.
  unfold box_drawing, midpoint. cbn [In].
  repeat split; try tauto;
    intros; Z.to_euclidean_division_equations; lia.
Qed.

(** * Further properties of initialize_camera and main *)

Lemma flat_map_after_map {A B C : Type} (g : A -> B) (f : B -> list C) (l : list A) :
  flat_map f (map g l) = flat_map (fun a => f (g a)) l.
Proof. induction l as [|a l IH]; cbn; [reflexivity | now rewrite IH]. Qed.

Section LoopPasses.

Variable w : World.

(** A pass that ends without an exception made all its calls, printed what
    [process_frame] printed, showed the annotated frame and tested the low
    byte of the key. *)
Lemma iteration_ok_inv (model : Model) (i : nat) (tr : list Event) (b : bool) :
  iteration w model i = (tr, Ok b) ->
  exists frame rgb_frame af out key,
    capture_array w i = Ok frame /\
    cvtColor w i frame = Ok rgb_frame /\
    process_frame rgb_frame model = Ok (af, out) /\
    imshow w i = Ok tt /\
    waitKey w i = Ok key /\
    tr = map EvPrint out ++ [EvShow "Position Detection" af] /\
    b = (Z.land key 255 =? 113).
Proof.
  unfold iteration.
  destruct (capture_array w i) as [frame|e] eqn:Ec;
    cbn [io_bind call]; [|discriminate].
  destruct (cvtColor w i frame) as [rgb|e] eqn:Ev;
    cbn [io_bind call app]; [|discriminate].
  destruct (process_frame rgb model) as [[af out]|e] eqn:Ep;
    cbn [io_bind call app]; [|discriminate].
  destruct (imshow w i) as [[]|e] eqn:Ei;
    cbn [io_bind call app emit]; [|discriminate].
  destruct (waitKey w i) as [key|e] eqn:Ek;
    cbn [io_bind call app ret]; [|discriminate].
  intros [= <- <-]. exists frame, rgb, af, out, key.
  repeat split; assumption.
Qed.

Lemma map_EvPrint_loop_events (out : list Text) :
  forallb is_loop_event (map EvPrint out) = true.
Proof. induction out as [|t out IH]; [reflexivity | exact IH]. Qed.

(** A pass only prints and shows. *)
Lemma iteration_events (model : Model) (i : nat) (tr : list Event) (r : result bool) :
  iteration w model i = (tr, r) -> forallb is_loop_event tr = true.
Proof.
  unfold iteration.
  destruct (capture_array w i) as [frame|e];
    cbn [io_bind call]; [|now intros [= <- <-]].
  destruct (cvtColor w i frame) as [rgb|e];
    cbn [io_bind call app]; [|now intros [= <- <-]].
  destruct (process_frame rgb model) as [[af out]|e];
    cbn [io_bind call app]; [|now intros [= <- <-]].
  destruct (imshow w i) as [[]|e];
    cbn [io_bind call app emit];
    [|intros [= <- <-]; rewrite app_nil_r; apply map_EvPrint_loop_events].
  destruct (waitKey w i) as [key|e];
    cbn [io_bind call app ret]; intros [= <- <-];
    rewrite forallb_app, map_EvPrint_loop_events; reflexivity.
Qed.

Lemma while_true_events (model : Model) (fuel : nat) :
  forall i tr r,
    while_true w model fuel i = Some (tr, r) -> forallb is_loop_event tr = true.
Proof.
  induction fuel as [|fuel IH]; intros i tr r; [discriminate|].
  cbn [while_true].
  destruct (iteration w model i) as [tr1 [[]|e]] eqn:E;
    try (intros [= <- <-]; exact (iteration_events _ _ _ _ E)).
  destruct (while_true w model fuel (S i)) as [[tr2 r2]|] eqn:E2; [|discriminate].
  intros [= <- <-]. rewrite forallb_app, (iteration_events _ _ _ _ E).
  exact (IH _ _ _ E2).
Qed.

(** The loop ends at the first pass that breaks or raises, with the events
    of all passes so far. *)
Lemma while_true_result (model : Model) (k : nat) :
  forall i fuel,
    (forall j, (j < k)%nat -> snd (iteration w model (i + j)) = Ok false) ->
    snd (iteration w model (i + k)) <> Ok false ->
    (k < fuel)%nat ->
    while_true w model fuel i =
    Some (flat_map (fun j => fst (iteration w model (i + j))) (seq 0 (S k)),
          match snd (iteration w model (i + k)) with
          | Ok _ => Ok tt
          | Raise e => Raise e
          end).
Proof.
  induction k as [|k IH]; intros i fuel Hbefore Hk Hfuel.
  - destruct fuel as [|fuel]; [lia|]. cbn [while_true seq flat_map].
    rewrite Nat.add_0_r in *. rewrite app_nil_r.
    destruct (iteration w model i) as [tr [[]|e]]; cbn [fst snd] in *;
      try reflexivity. congruence.
  - destruct fuel as [|fuel]; [lia|]. cbn [while_true].
    pose proof (Hbefore 0%nat ltac:(lia)) as H0. rewrite Nat.add_0_r in H0.
    destruct (iteration w model i) as [tr r] eqn:E. cbn [snd] in H0. subst r.
    rewrite (IH (S i) fuel); [| | |lia].
    + replace (S i + k)%nat with (i + S k)%nat by lia.
      f_equal. f_equal.
      change (seq 0 (S (S k))) with (0%nat :: seq 1 (S k)).
      cbn [flat_map]. rewrite Nat.add_0_r, E. cbn [fst]. f_equal.
      rewrite <- seq_shift, flat_map_after_map.
      apply flat_map_ext. intros j. now replace (S i + j)%nat with (i + S j)%nat by lia.
    + intros j Hj. replace (S i + j)%nat with (i + S j)%nat by lia.
      apply Hbefore. lia.
    + now replace (S i + k)%nat with (i + S k)%nat by lia.
Qed.

Lemma while_true_never_leaves (model : Model) (fuel : nat) :
  forall i,
    (forall j, snd (iteration w model j) = Ok false) ->
    while_true w model fuel i = None.
Proof.
  induction fuel as [|fuel IH]; intros i H; [reflexivity|].
  cbn [while_true]. specialize (H i) as Hi.
  destruct (iteration w model i) as [tr r]. cbn [snd] in Hi. subst r.
  now rewrite IH.
Qed.

Lemma initialize_camera_events (tr : list Event) (r : result Camera) :
  initialize_camera w = (tr, r) ->
  tr = (if is_ok (Picamera2 w) && is_ok (create_preview_configuration w)
           && is_ok (configure w) && is_ok (start w)
        then [EvCameraStart] else []) /\
  is_ok r = is_ok (Picamera2 w) && is_ok (create_preview_configuration w)
            && is_ok (configure w) && is_ok (start w) && is_ok (sleep w).
Proof.
  unfold initialize_camera, call, emit, ret.
  destruct (Picamera2 w), (create_preview_configuration w), (configure w),
    (start w), (sleep w); cbn; intros [= <- <-]; split; reflexivity.
Qed.

End LoopPasses.

Section MainRuns.

Variable w : World.

Lemma handlers_line (e : exn) :
  handlers e =
  (if caught e then [EvPrint (TxtPlain (handler_line e))] else [],
   if caught e then Ok tt else Raise e).
Proof. destruct e; reflexivity. Qed.

Lemma try_rest_events (fuel : nat) (tr : list Event) (r : result unit) :
  try_rest w fuel = Some (tr, r) -> forallb is_loop_event tr = true.
Proof.
  unfold try_rest, call.
  destruct (YOLO w "best.pt") as [model|e]; [|now intros [= <- <-]].
  destruct (while_true w model fuel 0) as [[tr' r']|] eqn:E; [|discriminate].
  intros [= <- <-]. cbn [app forallb is_loop_event andb].
  exact (while_true_events w model fuel _ _ _ E).
Qed.

Lemma main_loop_left (tr0 : list Event) (picam2 : Camera) (model : Model)
    (k fuel : nat) :
  initialize_camera w = (tr0, Ok picam2) ->
  YOLO w "best.pt" = Ok model ->
  (forall j, (j < k)%nat -> snd (iteration w model j) = Ok false) ->
  snd (iteration w model k) <> Ok false ->
  (k < fuel)%nat ->
  main w fuel =
  Some (try_except_finally w
          (body_events w tr0 model k,
           match snd (iteration w model k) with
           | Ok _ => Ok tt
           | Raise e => Raise e
           end)
          (Some picam2)).
Proof.
  intros Hi Hm Hbefore Hk Hfuel. unfold main, try_rest, call. rewrite Hi, Hm.
  rewrite (while_true_result w model k 0 fuel Hbefore Hk Hfuel).
  unfold body_events. cbn [app Nat.add]. reflexivity.
Qed.

Lemma main_pass_raises (tr0 : list Event) (picam2 : Camera) (model : Model)
    (k fuel : nat) (e : exn) :
  initialize_camera w = (tr0, Ok picam2) ->
  YOLO w "best.pt" = Ok model ->
  stop w = Ok tt -> destroyAllWindows w = Ok tt ->
  (forall j, (j < k)%nat -> snd (iteration w model j) = Ok false) ->
  snd (iteration w model k) = Raise e ->
  (k < fuel)%nat ->
  main w fuel =
  Some (body_events w tr0 model k
          ++ (if caught e then [ EvPrint (TxtPlain (handler_line e)) ] else [])
          ++ [ EvCameraStop; EvDestroyAllWindows ],
        if caught e then Ok tt else Raise e).
Proof.
  intros Hi Hm Hs Hd Hbefore Hk Hfuel.
  rewrite (main_loop_left tr0 picam2 model k fuel Hi Hm Hbefore) by (congruence || lia).
  rewrite Hk. unfold try_except_finally.
  rewrite handlers_line, (finally_bound w picam2 Hs Hd). reflexivity.
Qed.

Lemma shows_of_prints (out : list Text) :
  filter is_show (map EvPrint out) = [].
Proof. induction out as [|t out IH]; [reflexivity | exact IH]. Qed.

Lemma shows_of_passes (model : Model) (passes : list nat) :
  (forall j, In j passes -> is_ok (snd (iteration w model j)) = true) ->
  List.length (filter is_show (flat_map (fun j => fst (iteration w model j)) passes))
  = List.length passes.
Proof.
  induction passes as [|j passes IH]; intros H; [reflexivity|].
  cbn [flat_map]. rewrite filter_app, length_app, IH
    by (intros j' Hj'; apply H; now right).
  pose proof (H j (or_introl eq_refl)) as Hj.
  destruct (iteration w model j) as [tr [b|e]] eqn:E; [|discriminate].
  destruct (iteration_ok_inv w model j tr b E)
    as (frame & rgb & af & out & key & _ & _ & _ & _ & _ & -> & _).
  cbn [fst]. now rewrite filter_app, shows_of_prints.
Qed.

End MainRuns.

Lemma process_frame_zero_width (frame : Frame) (model : Model) (t : Box) :
  last_of_class model "topTether" (detections frame model) = Some t ->
  detected model "logo" (detections frame model) = true ->
  bx1 t = bx2 t ->
  process_frame frame model = Raise ZeroDivisionError.
Proof.
  intros Et Hl Hw.
  assert (Ht : detected model "topTether" (detections frame model) = true)
    by (apply last_of_class_detected; now exists t).
  destruct (process_frame_detected frame model Ht Hl)
    as (t' & l & pre & d & Et' & _ & _ & Hp & _).
  rewrite Et in Et'. injection Et' as <-.
  rewrite Hp. now apply position_block_zero_width.
Qed.

(** X7. [initialize_camera] returns the camera exactly when its five calls
    ([Picamera2()], [create_preview_configuration], [configure], [start],
    [time.sleep]) all return, and the camera has been started exactly when
    the first four returned: an exception during the warm-up sleep leaves a
    started camera and no handle. *)
Theorem X7_initialize_camera_outcome (w : World) :
  is_ok (snd (initialize_camera w)) =
    is_ok (Picamera2 w) && is_ok (create_preview_configuration w)
    && is_ok (configure w) && is_ok (start w) && is_ok (sleep w) /\
  existsb is_camera_start (fst (initialize_camera w)) =
    is_ok (Picamera2 w) && is_ok (create_preview_configuration w)
    && is_ok (configure w) && is_ok (start w).
Proof.
  destruct (initialize_camera w) as [tr r] eqn:E.
  destruct (initialize_camera_events w tr r E) as [-> Hr]. cbn [fst snd].
  split; [exact Hr|].
  now destruct (is_ok (Picamera2 w) && is_ok (create_preview_configuration w)
                && is_ok (configure w) && is_ok (start w)).
Qed.

(** X8. A pass of the loop that ends without an exception leaves the loop
    exactly when the low byte of the key code is 113 ('q'): the higher bits
    of what [cv2.waitKey] returns are ignored, and -1 (no key) continues. *)
Theorem X8_loop_left_on_low_byte_q (w : World) (model : Model) (i : nat)
    (tr : list Event) (b : bool) (key : Z) :
  iteration w model i = (tr, Ok b) ->
  waitKey w i = Ok key ->
  (b = true <-> key mod 256 = 113).
Proof.
  intros H Hk.
  destruct (iteration_ok_inv w model i tr b H)
    as (frame & rgb & af & out & key' & _ & _ & _ & _ & Hk' & _ & ->).
  rewrite Hk in Hk'. injection Hk' as <-.
  change 255 with (Z.ones 8). rewrite Z.land_ones by lia.
  change (2 ^ 8) with 256. apply Z.eqb_eq.
Qed.

Lemma X8_loop_left_on_low_byte_q_witness :
  (true = true <-> 113 mod 256 = 113) /\ (false = true <-> (-1) mod 256 = 113).
Proof.
  split.
  - eapply (X8_loop_left_on_low_byte_q Examples.world_ok Examples.model_right 1);
      reflexivity.
  - eapply (X8_loop_left_on_low_byte_q Examples.world_ok Examples.model_right 0);
      reflexivity.
Defined.

(** X9. Once the camera is initialised and the model loaded, an exception
    raised in pass [k] of the loop ends the run, and the camera is stopped
    and the windows are destroyed in every case.  An exception that an
    [except] clause catches (KeyboardInterrupt, or an instance of
    Exception) is reported by its line and [main] returns; any other one
    (SystemExit) is not reported and leaves [main] after the clean-up. *)
Theorem X9_exception_in_loop_is_handled (w : World) (tr0 : list Event)
    (picam2 : Camera) (model : Model) (k fuel : nat) (e : exn) :
  initialize_camera w = (tr0, Ok picam2) ->
  YOLO w "best.pt" = Ok model ->
  stop w = Ok tt -> destroyAllWindows w = Ok tt ->
  (forall j, (j < k)%nat -> snd (iteration w model j) = Ok false) ->
  snd (iteration w model k) = Raise e ->
  (k < fuel)%nat ->
  main w fuel =
  Some (body_events w tr0 model k
          ++ (if caught e then [ EvPrint (TxtPlain (handler_line e)) ] else [])
          ++ [ EvCameraStop; EvDestroyAllWindows ],
        if caught e then Ok tt else Raise e).
Proof. apply main_pass_raises. Qed.

Lemma X9_exception_in_loop_is_handled_witness :
  main Scenarios.world_interrupted_third 3 =
    Some (body_events Scenarios.world_interrupted_third [EvCameraStart]
            Examples.model_right 2
            ++ [ EvPrint (TxtPlain (handler_line KeyboardInterrupt)) ]
            ++ [ EvCameraStop; EvDestroyAllWindows ],
          Ok tt) /\
  main Scenarios.world_exit_second 2 =
    Some (body_events Scenarios.world_exit_second [EvCameraStart]
            Examples.model_right 1
            ++ []
            ++ [ EvCameraStop; EvDestroyAllWindows ],
          Raise SystemExit).
Proof.
  split.
  - apply (X9_exception_in_loop_is_handled Scenarios.world_interrupted_third
             [EvCameraStart] camera Examples.model_right 2 3 KeyboardInterrupt);
      try reflexivity; try lia.
    intros j Hj. destruct j as [|[|j]]; [reflexivity | reflexivity | lia].
  - apply (X9_exception_in_loop_is_handled Scenarios.world_exit_second
             [EvCameraStart] camera Examples.model_right 1 2 SystemExit);
      try reflexivity; try lia.
    intros j Hj. destruct j as [|j]; [reflexivity | lia].
Defined.

(** X10. When 'q' is pressed in pass [k], [main] returns without printing
    an error; exactly [k + 1] frames were shown, and the camera is stopped
    and the windows are destroyed last. *)
Theorem X10_q_leaves_normally (w : World) (tr0 : list Event)
    (picam2 : Camera) (model : Model) (k fuel : nat) :
  initialize_camera w = (tr0, Ok picam2) ->
  YOLO w "best.pt" = Ok model ->
  stop w = Ok tt -> destroyAllWindows w = Ok tt ->
  (forall j, (j < k)%nat -> snd (iteration w model j) = Ok false) ->
  snd (iteration w model k) = Ok true ->
  (k < fuel)%nat ->
  main w fuel =
    Some (body_events w tr0 model k ++ [ EvCameraStop; EvDestroyAllWindows ], Ok tt) /\
  List.length (filter is_show (body_events w tr0 model k)) = S k.
Proof.
  intros Hi Hm Hs Hd Hbefore Hk Hfuel. split.
  - rewrite (main_loop_left w tr0 picam2 model k fuel Hi Hm Hbefore)
      by (congruence || lia).
    rewrite Hk. unfold try_except_finally.
    rewrite (finally_bound w picam2 Hs Hd). reflexivity.
  - destruct (initialize_camera_events w tr0 _ Hi) as [-> _].
    unfold body_events. rewrite !filter_app, !length_app, shows_of_passes.
    + rewrite length_seq.
      now destruct (is_ok (Picamera2 w) && is_ok (create_preview_configuration w)
                    && is_ok (configure w) && is_ok (start w)).
    + intros j Hj. apply in_seq in Hj.
      destruct (Nat.eq_dec j k) as [->|Hne]; [now rewrite Hk|].
      rewrite Hbefore by lia. reflexivity.
Qed.

Lemma X10_q_leaves_normally_witness :
  main Examples.world_ok 2 =
    Some (body_events Examples.world_ok [EvCameraStart] Examples.model_right 1
            ++ [ EvCameraStop; EvDestroyAllWindows ], Ok tt) /\
  List.length (filter is_show
                 (body_events Examples.world_ok [EvCameraStart] Examples.model_right 1))
    = 2%nat.
Proof.
  apply (X10_q_leaves_normally Examples.world_ok [EvCameraStart] camera
           Examples.model_right 1 2); try reflexivity; try lia.
  intros j Hj. destruct j as [|j]; [reflexivity | lia].
Defined.

(** X11. When the camera is initialised, the model is loaded and no pass of
    the loop breaks or raises ('q' is never pressed), [main] never ends: it
    has not ended after any number of passes. *)
Theorem X11_main_runs_forever_without_q (w : World) (tr0 : list Event)
    (picam2 : Camera) (model : Model) (fuel : nat) :
  initialize_camera w = (tr0, Ok picam2) ->
  YOLO w "best.pt" = Ok model ->
  (forall j, snd (iteration w model j) = Ok false) ->
  main w fuel = None.
Proof.
  intros Hi Hm H. unfold main, try_rest, call. rewrite Hi, Hm.
  now rewrite (while_true_never_leaves w model fuel 0 H).
Qed.

Lemma X11_main_runs_forever_without_q_witness :
  main Scenarios.world_never_q 25 = None.
Proof.
  apply (X11_main_runs_forever_without_q Scenarios.world_never_q
           [EvCameraStart] camera Examples.model_right 25); reflexivity.
Defined.

(** X12. When loading the model raises, the loop is never entered and the
    camera is stopped and the windows are destroyed, whatever the later
    calls would do.  An exception that an [except] clause catches is
    reported by its line and [main] returns; any other one (SystemExit) is
    not reported and leaves [main] after the clean-up. *)
Theorem X12_model_load_failure_is_handled (w : World) (tr0 : list Event)
    (picam2 : Camera) (e : exn) (fuel : nat) :
  initialize_camera w = (tr0, Ok picam2) ->
  YOLO w "best.pt" = Raise e ->
  stop w = Ok tt -> destroyAllWindows w = Ok tt ->
  main w fuel =
  Some (tr0 ++ (if caught e then [ EvPrint (TxtPlain (handler_line e)) ] else [])
            ++ [ EvCameraStop; EvDestroyAllWindows ],
        if caught e then Ok tt else Raise e).
Proof.
  intros Hi Hm Hs Hd. unfold main, try_rest, call. rewrite Hi, Hm.
  unfold try_except_finally. rewrite handlers_line, (finally_bound w picam2 Hs Hd).
  now rewrite app_nil_r.
Qed.

Lemma X12_model_load_failure_is_handled_witness :
  main Scenarios.world_no_weights 0 =
    Some ([EvCameraStart]
            ++ [ EvPrint (TxtPlain (handler_line (RuntimeError "best.pt not found"))) ]
            ++ [ EvCameraStop; EvDestroyAllWindows ],
          Ok tt) /\
  main Scenarios.world_exit_on_load 0 =
    Some ([EvCameraStart] ++ [] ++ [ EvCameraStop; EvDestroyAllWindows ],
          Raise SystemExit).
Proof.
  split.
  - apply (X12_model_load_failure_is_handled Scenarios.world_no_weights
             [EvCameraStart] camera (RuntimeError "best.pt not found") 0);
      reflexivity.
  - apply (X12_model_load_failure_is_handled Scenarios.world_exit_on_load
             [EvCameraStart] camera SystemExit 0);
      reflexivity.
Defined.

Lemma initialize_camera_ok_events (w : World) (tr0 : list Event) (picam2 : Camera) :
  initialize_camera w = (tr0, Ok picam2) -> tr0 = [EvCameraStart].
Proof.
  intros H. destruct (initialize_camera_events w tr0 _ H) as [-> Hr].
  cbn [is_ok] in Hr. symmetry in Hr. apply andb_true_iff in Hr as [-> _].
  reflexivity.
Qed.

(** X13. Whatever exception [initialize_camera] raises, and whatever the
    other calls would do, the clean-up raises UnboundLocalError on
    [picam2], which leaves [main] in place of the first exception: neither
    [picam2.stop()] nor [cv2.destroyAllWindows()] is reached.  Before that
    the handler's line is printed when an [except] clause catches the first
    exception (KeyboardInterrupt or an instance of Exception), and nothing
    is printed otherwise (SystemExit). *)
Theorem X13_initialize_camera_failure_always_escapes (w : World)
    (tr0 : list Event) (e : exn) (fuel : nat) :
  initialize_camera w = (tr0, Raise e) ->
  main w fuel =
  Some (tr0 ++ (if caught e then [ EvPrint (TxtPlain (handler_line e)) ] else []),
        Raise (UnboundLocalError "picam2")).
Proof.
  intros Hi. unfold main. rewrite Hi. unfold try_except_finally.
  rewrite handlers_line. cbn [finally]. now rewrite app_nil_r.
Qed.

Lemma X13_initialize_camera_failure_always_escapes_witness :
  main Examples.world_interrupted_warm_up 7 =
    Some ([EvCameraStart] ++ [ EvPrint (TxtPlain (handler_line KeyboardInterrupt)) ],
          Raise (UnboundLocalError "picam2")) /\
  main Scenarios.world_exit_in_configure 7 =
    Some ([] ++ [], Raise (UnboundLocalError "picam2")).
Proof.
  split.
  - apply (X13_initialize_camera_failure_always_escapes
             Examples.world_interrupted_warm_up [EvCameraStart] KeyboardInterrupt 7).
    reflexivity.
  - apply (X13_initialize_camera_failure_always_escapes
             Scenarios.world_exit_in_configure [] SystemExit 7).
    reflexivity.
Defined.



(** X15. A single frame whose stored topTether box has width 0 (with a logo
    detected) ends the whole run: the ZeroDivisionError of [process_frame]
    reaches the catch-all of [main], which prints
    "An error occurred: division by zero", cleans up and returns; that frame
    is not shown. *)
Theorem X15_zero_width_frame_ends_the_run (w : World) (tr0 : list Event)
    (picam2 : Camera) (model : Model) (k fuel : nat)
    (frame rgb_frame : Frame) (t : Box) :
  initialize_camera w = (tr0, Ok picam2) ->
  YOLO w "best.pt" = Ok model ->
  stop w = Ok tt -> destroyAllWindows w = Ok tt ->
  (forall j, (j < k)%nat -> snd (iteration w model j) = Ok false) ->
  capture_array w k = Ok frame ->
  cvtColor w k frame = Ok rgb_frame ->
  last_of_class model "topTether" (detections rgb_frame model) = Some t ->
  detected model "logo" (detections rgb_frame model) = true ->
  bx1 t = bx2 t ->
  (k < fuel)%nat ->
  iteration w model k = ([], Raise ZeroDivisionError) /\
  main w fuel =
  Some (body_events w tr0 model k
          ++ [ EvPrint (TxtPlain "An error occurred: division by zero");
               EvCameraStop; EvDestroyAllWindows ],
        Ok tt).
Proof.
  intros Hi Hm Hs Hd Hbefore Hc Hv Et Hl Hw Hfuel.
  assert (Hk : iteration w model k = ([], Raise ZeroDivisionError)).
  { unfold iteration. rewrite Hc. cbn [io_bind call]. rewrite Hv.
    cbn [io_bind call app].
    now rewrite (process_frame_zero_width rgb_frame model t Et Hl Hw). }
  split; [exact Hk|].
  apply (main_pass_raises w tr0 picam2 model k fuel ZeroDivisionError);
    try assumption. now rewrite Hk.
Qed.

Lemma X15_zero_width_frame_ends_the_run_witness :
  iteration Scenarios.world_zero_width_second Scenarios.model_zero_width_second 1
    = ([], Raise ZeroDivisionError) /\
  main Scenarios.world_zero_width_second 2 =
  Some (body_events Scenarios.world_zero_width_second [EvCameraStart]
          Scenarios.model_zero_width_second 1
          ++ [ EvPrint (TxtPlain "An error occurred: division by zero");
               EvCameraStop; EvDestroyAllWindows ],
        Ok tt).
Proof.
  apply (X15_zero_width_frame_ends_the_run Scenarios.world_zero_width_second
           [EvCameraStart] camera Scenarios.model_zero_width_second 1 2
           {| shape0 := 480; shape1 := 640; pixels := [1] |}
           {| shape0 := 480; shape1 := 640; pixels := [1] |}
           {| bx1 := 200; by1 := 50; bx2 := 200; by2 := 100 |});
    try reflexivity; try lia.
  intros j Hj. destruct j as [|j]; [reflexivity | lia].
Defined.

(** X16. When [picam2.stop()] raises in the clean-up, that exception leaves
    [main] in place of any result of the try body, and
    [cv2.destroyAllWindows()] is not called: the events are the camera start
    followed by prints and shown frames only. *)
Theorem X16_failing_stop_skips_destroy (w : World) (tr0 : list Event)
    (picam2 : Camera) (e : exn) (fuel : nat) (tr : list Event) (r : result unit) :
  initialize_camera w = (tr0, Ok picam2) ->
  stop w = Raise e ->
  main w fuel = Some (tr, r) ->
  r = Raise e /\
  exists rest,
    tr = EvCameraStart :: rest /\ forallb is_loop_event rest = true.
Proof.
  intros Hi Hs. unfold main. rewrite Hi.
  rewrite (initialize_camera_ok_events w tr0 picam2 Hi).
  destruct (try_rest w fuel) as [[tr1 r1]|] eqn:E; [|discriminate].
  pose proof (try_rest_events w fuel tr1 r1 E) as Hev.
  unfold try_except_finally, finally, call. rewrite Hs. cbn [io_bind].
  destruct r1 as [[]|e1].
  - intros [= <- <-]. split; [reflexivity|]. exists tr1.
    now rewrite !app_nil_r.
  - rewrite handlers_line. destruct (caught e1); intros [= <- <-];
      (split; [reflexivity|]).
    + exists (tr1 ++ [EvPrint (TxtPlain (handler_line e1))]). split.
      * cbn [app]. now rewrite ?app_nil_r.
      * now rewrite forallb_app, Hev.
    + exists tr1. now rewrite !app_nil_r.
Qed.

Lemma X16_failing_stop_skips_destroy_witness :
  exists tr r,
    main Scenarios.world_stop_fails 2 = Some (tr, r) /\
    r = Raise (RuntimeError "Camera has not been started") /\
    exists rest,
      tr = EvCameraStart :: rest /\ forallb is_loop_event rest = true.
Proof.
  do 2 eexists. split; [reflexivity|].
  apply (X16_failing_stop_skips_destroy Scenarios.world_stop_fails
           [EvCameraStart] camera (RuntimeError "Camera has not been started") 2);
    reflexivity.
Defined.
